(** * tool-upgrade-go: the self-upgrade helper, embedded and verified

    The Go package [upgrade] (upgrade.go, paths.go) is embedded as a
    shallow model: every function of the package becomes a computation
    in a small state monad over an explicit picture of the machine it
    runs on (a file system, the process environment, the wall clock, the
    artifact server and the failures the operating system may report).

    What belongs to the package is translated line by line.  What the
    package only calls (the Go runtime, [os], [net/http],
    [path/filepath], [github.com/pkg/errors], [github.com/termie/go-shutil]
    and [github.com/blang/semver]) is modelled from its documented
    behaviour; the semantic-version library is left abstract behind a
    class. *)

From Stdlib Require Import ZArith PrimFloat Uint63 String Ascii DecimalString.
From stdpp Require Import gmap strings list.

Open Scope Z_scope.

(** ** Go error values *)

(** An [error] is an interface value; the constructor is its dynamic
    type.  nil is [None] of [option error]. *)
Inductive error : Type :=
| PathError (op path msg : string)        (* *os.PathError{Op, Path, Err} *)
| LinkError (op old new msg : string)     (* *os.LinkError *)
| UrlError (op url msg : string)          (* *url.Error, from net/http *)
| ErrorString (msg : string)              (* errors.New, fmt.Errorf *)
| Wrapped (cause : error) (msg : string). (* pkg/errors: message and stack around a cause *)

Fixpoint Error (e : error) : string :=
  match e with
  | PathError op path msg => op +:+ " " +:+ path +:+ ": " +:+ msg
  | LinkError op old new msg => op +:+ " " +:+ old +:+ " " +:+ new +:+ ": " +:+ msg
  | UrlError op url msg => op +:+ " " +:+ url +:+ ": " +:+ msg
  | ErrorString msg => msg
  | Wrapped cause msg => msg +:+ ": " +:+ Error cause
  end.

(** [errors.Wrap(err, message)] of github.com/pkg/errors: "If err is nil,
    Wrap returns nil." *)
Definition Wrap (err : option error) (message : string) : option error :=
  match err with
  | None => None
  | Some e => Some (Wrapped e message)
  end.

Definition nl : string := String (ascii_of_nat 10) EmptyString.

(** ** The semantic-version library *)

(** github.com/blang/semver is not part of the package; the package uses
    [semver.Make], [Version.GT], [Version.GTE] and [Version.String].  GT
    and GTE are defined in the library from [Compare], whose result is
    -1, 0 or 1 and which is antisymmetric. *)
Class Semver : Type := {
  Version : Type;
  Version_zero : Version;                       (* semver.Version{} *)
  Make : string → Version * option error;
  Compare : Version → Version → Z;
  Version_String : Version → string;
  Compare_antisym : ∀ v o, Compare v o = 1 → Compare o v = -1;
}.

Definition GT `{Semver} (v o : Version) : bool := Compare v o =? 1.
Definition GTE `{Semver} (v o : Version) : bool := Compare v o >=? 0.

(** ** time.Duration and float64 *)

(** A [time.Time] is a count of nanoseconds of wall-clock time, a
    [time.Duration] an int64 count of nanoseconds, a float64 a primitive
    binary64 float. *)
Definition maxDuration : Z := 2 ^ 63 - 1.
Definition minDuration : Z := - 2 ^ 63.
Definition Hour : Z := 3600000000000.

(** [t.Sub(u)]: the difference, saturated to the range of a Duration. *)
Definition Sub (t u : Z) : Z :=
  let d := t - u in
  if d <? minDuration then minDuration
  else if maxDuration <? d then maxDuration
  else d.

(** float64(x) for an int64 x *)
Definition float64 (x : Z) : float :=
  if x <? 0 then PrimFloat.opp (PrimFloat.of_uint63 (Uint63.of_Z (- x)))
  else PrimFloat.of_uint63 (Uint63.of_Z x).

(** [d.Hours()]: Go divides with truncation toward zero. *)
Definition Hours (d : Z) : float :=
  let hour := Z.quot d Hour in
  let nsec := Z.rem d Hour in
  PrimFloat.add (float64 hour)
                (PrimFloat.div (float64 nsec) (float64 (60 * 60 * 1000000000))).

(** ** path/filepath (Unix flavour) *)

(** [strings.Split(cur ++ s, sep)], for a one-character separator that
    does not occur in [cur] *)
Fixpoint split_on (sep : ascii) (cur : string) (s : string) : list string :=
  match s with
  | EmptyString => [cur]
  | String c s' =>
      if Ascii.eqb c sep then cur :: split_on sep EmptyString s'
      else split_on sep (cur +:+ String c EmptyString) s'
  end.

Fixpoint join_sep (l : list string) : string :=
  match l with
  | [] => EmptyString
  | [e] => e
  | e :: l' => e +:+ "/" +:+ join_sep l'
  end.

(** The elements of a cleaned path, most recent first in [out]: empty and
    "." elements vanish, ".." removes the element before it, is dropped
    at the root, and is kept at the start of a relative path. *)
Fixpoint clean_elems (rooted : bool) (out : list string) (elems : list string)
  : list string :=
  match elems with
  | [] => rev out
  | e :: rest =>
      if String.eqb e "" || String.eqb e "." then clean_elems rooted out rest
      else if String.eqb e ".." then
        match out with
        | top :: out' =>
            if String.eqb top ".." then clean_elems rooted (e :: out) rest
            else clean_elems rooted out' rest
        | [] =>
            if rooted then clean_elems rooted [] rest
            else clean_elems rooted [e] rest
        end
      else clean_elems rooted (e :: out) rest
  end.

Definition is_rooted (path : string) : bool :=
  match path with
  | String c _ => Ascii.eqb c "/"%char
  | EmptyString => false
  end.

Definition filepath_Clean (path : string) : string :=
  if String.eqb path "" then "."
  else
    let rooted := is_rooted path in
    let out := join_sep (clean_elems rooted [] (split_on "/" EmptyString path)) in
    if rooted then "/" +:+ out
    else if String.eqb out "" then "."
    else out.

(** [filepath.Join]: leading empty elements are ignored, the rest is
    joined with the separator and cleaned; all empty gives "". *)
Fixpoint filepath_Join (elem : list string) : string :=
  match elem with
  | [] => ""
  | e :: rest =>
      if String.eqb e "" then filepath_Join rest
      else filepath_Clean (join_sep elem)
  end.

(** Whether a character occurs in a string; a path element is a
    non-empty string without separator. *)
Fixpoint contains (c : ascii) (s : string) : bool :=
  match s with
  | EmptyString => false
  | String a s' => Ascii.eqb a c || contains c s'
  end.

Definition element (e : string) : Prop := e ≠ "" ∧ contains "/" e = false.

(** ** The machine *)

Record File : Type := mkFile {
  contents : string;
  perm : N;
  modtime : Z;
}.

(** What the package asks of the operating system and of the network,
    one constructor per operation it calls; the same type names the
    entries of the execution trace and the operations that may fail. *)
Inductive call : Type :=
| OpenFile (name : string)
| FileStat (name : string)
| FileTruncate (name : string)
| TempFile (dir pattern : string)
| FileChmod (name : string)
| FileWrite (name : string)
| Remove (name : string)
| RemoveAll (path : string)
| Rename (oldpath newpath : string)
| Copy (src dst : string)
| Executable
| HttpGet (url : string)
| Stdout (text : string)
| Stderr (text : string).

Record Response : Type := mkResponse {
  StatusCode : Z;
  Status : string;
  Body : string;
  BodyErr : option error;   (* the error that ends the body, nil for io.EOF *)
}.

(** The surroundings of one run: fixed while the package's functions
    execute. *)
Record Host : Type := mkHost {
  environ : gmap string string;
  clock : Z;                                 (* time.Now(), and the time stamp of writes *)
  exe : string;                              (* what os.Executable reports *)
  args0 : string;                            (* os.Args[0] *)
  GOOS : string;
  GOARCH : string;
  TempDir : string;                          (* os.TempDir() *)
  tempnames : string → string → list string; (* the names ioutil.TempFile tries, in order *)
  server : string → Response + error;        (* the outcome of a GET *)
  faults : call → option error;              (* the operations the system refuses *)
  debris : option string;                    (* what a failed copy leaves at its destination *)
}.

(** A flat name space of regular files, and the trace of calls made so
    far, oldest first. *)
Record State : Type := mkState {
  fs : gmap string File;
  trace : list call;
}.

Definition log (c : call) (s : State) : State :=
  mkState (fs s) (trace s ++ [c]).

Definition set_fs (m : gmap string File) (s : State) : State :=
  mkState m (trace s).

(** ** Computations: state, and Go's panic *)

Inductive outcome (A : Type) : Type :=
| Done (a : A)
| Panic (reason : string).
Arguments Done {A} a.
Arguments Panic {A} reason.

Definition M (A : Type) : Type := State → outcome A * State.

#[global] Instance M_ret : MRet M := λ A a s, (Done a, s).
#[global] Instance M_bind : MBind M := λ A B f m s,
  match m s with
  | (Done a, s') => f a s'
  | (Panic r, s') => (Panic r, s')
  end.

Definition panic {A} (reason : string) : M A := λ s, (Panic reason, s).

(** [defer]: [body] returns its result together with the final value of
    the variable the deferred closure captured; the closure runs after
    the return value is fixed. *)
Definition defer {A V} (body : M (A * V)) (deferred : V → M unit) : M A :=
  '(a, v) ← body; deferred v;; mret a.

Section Package.
Context `{Semver} (h : Host).

(** ** The operations of the runtime and the libraries *)

Definition os_Getenv (key : string) : string :=
  default "" (environ h !! key).

Definition print (c : call) : M unit := λ s, (Done (), log c s).

(** [os.OpenFile(name, os.O_CREATE|os.O_RDWR, perm)]: an existing file
    is opened as it is, a missing one is created empty. *)
Definition os_OpenFile (name : string) (mode : N) : M (option error) := λ s,
  let s := log (OpenFile name) s in
  match faults h (OpenFile name) with
  | Some e => (Done (Some e), s)
  | None =>
      match fs s !! name with
      | Some _ => (Done None, s)
      | None => (Done None, set_fs (<[name := mkFile "" mode (clock h)]> (fs s)) s)
      end
  end.

(** [file.Stat()], of which the package reads [ModTime()] *)
Definition file_Stat (name : string) : M (Z * option error) := λ s,
  let s := log (FileStat name) s in
  match faults h (FileStat name) with
  | Some e => (Done (0, Some e), s)
  | None =>
      match fs s !! name with
      | Some f => (Done (modtime f, None), s)
      | None => (Done (0, Some (PathError "stat" name "no such file or directory")), s)
      end
  end.

(** [file.Truncate(0)]: the content is cleared and the modification
    time set to the time of the call. *)
Definition file_Truncate (name : string) : M (option error) := λ s,
  let s := log (FileTruncate name) s in
  match faults h (FileTruncate name) with
  | Some e => (Done (Some e), s)
  | None =>
      match fs s !! name with
      | Some f => (Done None, set_fs (<[name := mkFile "" (perm f) (clock h)]> (fs s)) s)
      | None => (Done (Some (PathError "truncate" name "no such file or directory")), s)
      end
  end.

Definition fresh_name (m : gmap string File) (names : list string) : option string :=
  List.find (λ n, bool_decide (m !! n = None)) names.

(** [ioutil.TempFile(dir, pattern)]: the first candidate name that does
    not exist yet is created exclusively, empty, with mode 0600. *)
Definition ioutil_TempFile (dir pattern : string) : M (string * option error) := λ s,
  let s := log (TempFile dir pattern) s in
  match faults h (TempFile dir pattern) with
  | Some e => (Done ("", Some e), s)
  | None =>
      let dir := if String.eqb dir "" then TempDir h else dir in
      match fresh_name (fs s) (tempnames h dir pattern) with
      | Some name => (Done (name, None), set_fs (<[name := mkFile "" 384 (clock h)]> (fs s)) s)
      | None => (Done ("", Some (PathError "open" dir "file exists")), s)
      end
  end.

Definition file_Chmod (name : string) (mode : N) : M (option error) := λ s,
  let s := log (FileChmod name) s in
  match faults h (FileChmod name) with
  | Some e => (Done (Some e), s)
  | None =>
      match fs s !! name with
      | Some f => (Done None, set_fs (<[name := mkFile (contents f) mode (modtime f)]> (fs s)) s)
      | None => (Done (Some (PathError "chmod" name "no such file or directory")), s)
      end
  end.

(** [http.Get(url)] *)
Definition http_Get (url : string) : M (Response + error) := λ s,
  (Done (server h url), log (HttpGet url) s).

(** [ioutil.ReadAll(resp.Body)] *)
Definition ioutil_ReadAll (resp : Response) : string * option error :=
  (Body resp, BodyErr resp).

(** [io.Copy(file, resp.Body)]: what the body delivers is appended to
    the file, and the error that ended the body, if any, is returned. *)
Definition io_Copy (name : string) (resp : Response) : M (option error) := λ s,
  let s := log (FileWrite name) s in
  match faults h (FileWrite name) with
  | Some e => (Done (Some e), s)
  | None =>
      match fs s !! name with
      | Some f =>
          (Done (BodyErr resp),
           set_fs (<[name := mkFile (contents f +:+ Body resp) (perm f) (clock h)]> (fs s)) s)
      | None => (Done (Some (PathError "write" name "file already closed")), s)
      end
  end.

Definition os_Executable : M (string * option error) := λ s,
  let s := log Executable s in
  match faults h Executable with
  | Some e => (Done ("", Some e), s)
  | None => (Done (exe h, None), s)
  end.

Definition os_Remove (name : string) : M (option error) := λ s,
  let s := log (Remove name) s in
  match faults h (Remove name) with
  | Some e => (Done (Some e), s)
  | None =>
      match fs s !! name with
      | Some _ => (Done None, set_fs (delete name (fs s)) s)
      | None => (Done (Some (PathError "remove" name "no such file or directory")), s)
      end
  end.

(** [os.RemoveAll(path)]: "If the path does not exist, RemoveAll
    returns nil." *)
Definition os_RemoveAll (path : string) : M (option error) := λ s,
  let s := log (RemoveAll path) s in
  match faults h (RemoveAll path) with
  | Some e => (Done (Some e), s)
  | None => (Done None, set_fs (delete path (fs s)) s)
  end.

(** [os.Rename(oldpath, newpath)]: atomic; an existing [newpath] is
    replaced; a refused rename changes nothing. *)
Definition os_Rename (oldpath newpath : string) : M (option error) := λ s,
  let s := log (Rename oldpath newpath) s in
  match faults h (Rename oldpath newpath) with
  | Some e => (Done (Some e), s)
  | None =>
      match fs s !! oldpath with
      | Some f => (Done None, set_fs (<[newpath := f]> (delete oldpath (fs s))) s)
      | None =>
          (Done (Some (LinkError "rename" oldpath newpath "no such file or directory")), s)
      end
  end.

(** [shutil.Copy(src, dst, followSymlinks)]: data and mode bits.  A
    copy that fails midway may leave [debris] at the destination. *)
Definition shutil_Copy (src dst : string) (followSymlinks : bool)
  : M (string * option error) := λ s,
  let s := log (Copy src dst) s in
  match faults h (Copy src dst) with
  | Some e =>
      (Done (dst, Some e),
       match debris h with
       | Some d => set_fs (<[dst := mkFile d 438 (clock h)]> (fs s)) s
       | None => s
       end)
  | None =>
      if String.eqb src dst then
        (Done (dst, Some (ErrorString (src +:+ " and " +:+ dst +:+ " are the same file"))), s)
      else
        match fs s !! src with
        | Some f =>
            (Done (dst, None),
             set_fs (<[dst := mkFile (contents f) (perm f) (clock h)]> (fs s)) s)
        | None => (Done (dst, Some (PathError "lstat" src "no such file or directory")), s)
        end
  end.

(** ** paths.go *)

Definition GetHome : string :=
  let home := os_Getenv "HOME" in
  let home := if String.eqb home "" then os_Getenv "USERPROFILE" else home in
  home.

(** ** upgrade.go *)

Definition CurrentVersion (version : string) : Version * option error :=
  Make version.

Definition version_url (repo filePrefix channel : string) : string :=
  repo +:+ "/" +:+ filePrefix +:+ channel.

Definition AvailableVersion (repo filePrefix channel : string)
  : M (Version * option error) :=
  r ← http_Get (version_url repo filePrefix channel);
  match r with
  | inr err => mret (Version_zero, Some err)
  | inl resp =>
      if negb (StatusCode resp =? 200) then
        mret (Version_zero,
              Some (ErrorString ("while getting version; unexpected status " +:+ Status resp)))
      else
        match ioutil_ReadAll resp with
        | (_, Some err) => mret (Version_zero, Some err)
        | (versionBytes, None) => mret (Make versionBytes)
        end
  end.

Definition marker_path (tool : string) : string :=
  filepath_Join [GetHome; "." +:+ tool +:+ "-version-check"].

Definition CheckAndNotifyIfOutOfDate
    (tool currentVersion repo filePrefix versionStable : string)
    (hoursToCheckForUpdate : float) (upgradeCommand : string)
  : M (bool * option error) :=
  let fn := marker_path tool in
  err ← os_OpenFile fn 420;
  match err with
  | Some e =>
      print (Stderr ("error: cannot create file (" +:+ fn +:+ ") to cache version checks" +:+ nl));;
      print (Stderr ("error: " +:+ Error e +:+ nl));;
      mret (false, Some e)
  | None =>
      '(mtime, err) ← file_Stat fn;
      match err with
      | Some e =>
          print (Stderr ("error: cannot stat (" +:+ fn +:+ ")" +:+ nl));;
          print (Stderr ("error: " +:+ Error e +:+ nl));;
          mret (false, Some e)
      | None =>
          let diff := Sub (clock h) mtime in
          if PrimFloat.ltb (Hours diff) hoursToCheckForUpdate then mret (false, None)
          else
            (* update mtime *)
            err ← file_Truncate fn;
            match err with
            | Some e =>
                print (Stderr ("error: cannot update mtime (" +:+ fn +:+ ")" +:+ nl));;
                print (Stderr ("error: " +:+ Error e +:+ nl));;
                mret (false, Some e)
            | None =>
                match CurrentVersion currentVersion with
                | (_, Some e) => mret (false, Some e)
                | (curr, None) =>
                    '(avail, err) ← AvailableVersion repo filePrefix versionStable;
                    match err with
                    | Some e => mret (false, Some e)
                    | None =>
                        if GT avail curr then
                          print (Stderr ("A new version of [" +:+ tool +:+ "] is available, run: "
                                         +:+ upgradeCommand +:+ nl));;
                          mret (true, None)
                        else mret (false, None)
                    end
                end
            end
      end
  end.

Definition binary_url (repo version tool : string) : string :=
  repo +:+ "/" +:+ version +:+ "/" +:+ tool +:+ "_" +:+ GOOS h +:+ "_" +:+ GOARCH h.

(** The closure deferred by [Download]: it reads the function's
    variable [err] when the function returns. *)
Definition Download_deferred (tmpfn : string) (err : option error) : M unit :=
  (* tmp.Close() has no effect on a file system keyed by name *)
  match err with
  | Some _ => os_Remove tmpfn;; mret ()
  | None => mret ()
  end.

(** The part of [Download] that runs after the [defer] statement.  The
    second component of its result is the value the function's
    variable [err] holds at the return: [resp, err := http.Get(...)]
    assigns it; the results of the function are unnamed, so
    [return "", fmt.Errorf(...)] does not; and [_, err := io.Copy(...)]
    declares a new [err] local to the if statement. *)
Definition Download_body (repo version tool tmpfn : string)
  : M ((string * option error) * option error) :=
  (* get the fresh bits *)
  r ← http_Get (binary_url repo version tool);
  match r with
  | inr err => mret (("", Some err), Some err)
  | inl resp =>
      let err := None in
      if negb (StatusCode resp =? 200) then
        mret (("", Some (ErrorString ("while getting updated binary; unexpected status "
                                      +:+ Status resp))), err)
      else
        err' ← io_Copy tmpfn resp;
        match err' with
        | Some e => mret (("", Some e), err)
        | None => mret ((tmpfn, None), err)
        end
  end.

Definition Download (repo version tool : string) : M (string * option error) :=
  (* now that we have the version, create the temp file and set perms *)
  '(tmp, err) ← ioutil_TempFile "" (tool +:+ "_upgrade");
  match err with
  | Some e => mret ("", Some e)
  | None =>
      err ← file_Chmod tmp 493;
      match err with
      | Some (PathError _ _ msg) =>
          if negb (String.eqb msg "not supported by windows") then mret ("", err)
          else defer (Download_body repo version tool tmp) (Download_deferred tmp)
      | Some _ => panic "interface conversion: error is not *os.PathError"
      | None => defer (Download_body repo version tool tmp) (Download_deferred tmp)
      end
  end.

Definition RemoveBackup : M (string * string * option error) :=
  '(arg0, err) ← os_Executable;
  match err with
  | Some _ => mret ("", "", Wrap err "unable to find executable")
  | None =>
      let backup := arg0 +:+ "~" in
      err ← os_RemoveAll backup;
      match err with
      | Some _ => mret (arg0, backup, Wrap err ("unable to remove " +:+ backup))
      | None => mret (arg0, backup, None)
      end
  end.

(** [*upgradeForce]: a nil pointer is [None]. *)
Definition deref (p : option bool) : M bool :=
  match p with
  | Some b => mret b
  | None => panic "invalid memory address or nil pointer dereference"
  end.

Definition Upgrade (tool currentVersion repo filePrefix versionStable : string)
    (upgradeForce : option bool) : M (option error) :=
  match CurrentVersion currentVersion with
  | (_, Some e) => mret (Wrap (Some e) "unable to get current version")
  | (curr, None) =>
  '(avail, err) ← AvailableVersion repo filePrefix versionStable;
  match err with
  | Some _ => mret (Wrap err "unable to get available version")
  | None =>
  force ← deref upgradeForce;
  if negb force && GTE curr avail then
    print (Stdout (tool +:+ " is up-to-date. Go forth and be awesome!" +:+ nl));;
    mret None
  else
  '(arg0, backup, err) ← RemoveBackup;
  match err with
  | Some _ => mret err
  | None =>
  print (Stdout ("upgrading " +:+ arg0 +:+ " to " +:+ Version_String avail +:+ nl));;
  '(tmp, err) ← Download repo (Version_String avail) tool;
  match err with
  | Some _ => mret (Wrap err ("unable to upgrade " +:+ tool))
  | None =>
  err ← os_Rename arg0 backup;
  match err with
  | Some _ =>
      mret (Wrap err ("unable to upgrade " +:+ tool +:+ " in-place; move " +:+ tmp
                      +:+ " to " +:+ args0 h))
  | None =>
  '(_, err) ← shutil_Copy tmp arg0 false;
  match err with
  | Some _ =>
      err ← os_Rename backup arg0;
      match err with
      | Some _ =>
          mret (Wrap err ("upgrade failed and unable to recover from backup;"
                          +:+ " move " +:+ tmp +:+ " to " +:+ args0 h))
      | None =>
          mret (Wrap err ("unable to upgrade " +:+ tool +:+ " in-place; move " +:+ tmp
                          +:+ " to " +:+ args0 h))
      end
  | None =>
  err ← os_Remove tmp;
  match err with
  | Some _ => mret (Wrap err ("unable to clean up temp file; remove " +:+ tmp))
  | None => mret None
  end end end end end end end.

End Package.

(** ** Notions used in the statements *)

Section Notions.
Context `{Semver} (h : Host).

(** The outcome of version resolution as a function of the server alone. *)
Definition resolved (repo filePrefix channel : string) : Version * option error :=
  match server h (version_url repo filePrefix channel) with
  | inr err => (Version_zero, Some err)
  | inl resp =>
      if StatusCode resp =? 200 then
        match BodyErr resp with
        | Some err => (Version_zero, Some err)
        | None => Make (Body resp)
        end
      else
        (Version_zero,
         Some (ErrorString ("while getting version; unexpected status " +:+ Status resp)))
  end.

(** The modification time [Stat] reports for the marker: a marker that
    does not exist yet is created by the open, at the current time. *)
Definition marker_mtime (tool : string) (s : State) : Z :=
  match fs s !! marker_path h tool with
  | Some f => modtime f
  | None => clock h
  end.

(** now - marker.mtime, in hours, is less than the configured hours *)
Definition gate_skips (tool : string) (hours : float) (s : State) : bool :=
  PrimFloat.ltb (Hours (Sub (clock h) (marker_mtime tool s))) hours.

(** What the two versions decide once the gate has let the check pass. *)
Definition verdict (currentVersion repo filePrefix versionStable : string)
  : bool * option error :=
  match CurrentVersion currentVersion with
  | (_, Some e) => (false, Some e)
  | (curr, None) =>
      match resolved repo filePrefix versionStable with
      | (_, Some e) => (false, Some e)
      | (avail, None) => (GT avail curr, None)
      end
  end.

(** The calls that follow the truncation of the marker. *)
Definition after_claim (tool currentVersion repo filePrefix versionStable cmd : string)
  : list call :=
  match CurrentVersion currentVersion with
  | (_, Some _) => []
  | (curr, None) =>
      HttpGet (version_url repo filePrefix versionStable) ::
      match resolved repo filePrefix versionStable with
      | (avail, None) =>
          if GT avail curr then
            [Stderr ("A new version of [" +:+ tool +:+ "] is available, run: " +:+ cmd +:+ nl)]
          else []
      | (_, Some _) => []
      end
  end.

(** [Upgrade] has parsed the current version, resolved the available
    one, removed the old backup and downloaded the new binary to [tmp]:
    the runs of the functions it calls up to line 191, each without
    error, ending in state [s3]. *)
Definition prepared (tool currentVersion repo filePrefix versionStable : string)
    (s : State) (curr avail : Version) (arg0 backup tmp : string) (s3 : State) : Prop :=
  ∃ s1 s2,
    CurrentVersion currentVersion = (curr, None)
    ∧ AvailableVersion h repo filePrefix versionStable s = (Done (avail, None), s1)
    ∧ RemoveBackup h s1 = (Done (arg0, backup, None), s2)
    ∧ Download h repo (Version_String avail) tool
        (log (Stdout ("upgrading " +:+ arg0 +:+ " to " +:+ Version_String avail +:+ nl)) s2)
      = (Done (tmp, None), s3).

End Notions.

(** ** An instance of the version library: release versions

    Versions of the form major.minor.patch without pre-release or build
    part; on these the instance parses, orders and prints as the library
    does.  It serves the concrete runs below. *)
Module Release.

Definition V : Type := N * N * N.

Definition leading_zero (s : string) : bool :=
  match s with
  | String c (String _ _) => Ascii.eqb c "0"%char
  | _ => false
  end.

Definition number (s : string) : option N :=
  if String.eqb s "" then None
  else if leading_zero s then None
  else N.of_uint <$> NilEmpty.uint_of_string s.

Definition make (s : string) : V * option error :=
  match split_on "." EmptyString s with
  | [a; b; c] =>
      match number a, number b, number c with
      | Some x, Some y, Some z => ((x, y, z), None)
      | _, _, _ => ((0, 0, 0)%N, Some (ErrorString "Invalid character(s) found in version"))
      end
  | _ => ((0, 0, 0)%N, Some (ErrorString "No Major.Minor.Patch elements found"))
  end.

Definition sign (c : comparison) (next : Z) : Z :=
  match c with
  | Lt => -1
  | Gt => 1
  | Eq => next
  end.

Definition compare (v o : V) : Z :=
  let '(a, b, c) := v in
  let '(x, y, z) := o in
  sign (N.compare a x) (sign (N.compare b y) (sign (N.compare c z) 0)).

Definition decimal (n : N) : string := NilEmpty.string_of_uint (N.to_uint n).

Definition to_string (v : V) : string :=
  let '(a, b, c) := v in
  decimal a +:+ "." +:+ decimal b +:+ "." +:+ decimal c.

Lemma compare_antisym (v o : V) : compare v o = 1 → compare o v = -1.
Proof.
  destruct v as [[a b] c], o as [[x y] z]. unfold compare, sign.
  rewrite (N.compare_antisym a x), (N.compare_antisym b y), (N.compare_antisym c z).
  destruct (a ?= x)%N, (b ?= y)%N, (c ?= z)%N; simpl; congruence.
Qed.

#[export] Instance semver : Semver := {|
  Version := V;
  Version_zero := (0, 0, 0)%N;
  Make := make;
  Compare := compare;
  Version_String := to_string;
  Compare_antisym := compare_antisym;
|}.

End Release.

(** ** A concrete machine for the examples *)
Module Demo.
Import Release.

Definition self : string := "/usr/local/bin/tool".
Definition repo : string := "https://example.com/tool".
Definition tmpname : string := "/tmp/tool_upgrade123456789".
Definition marker : string := "/home/u/.tool-version-check".
Definition now : Z := 1700000000000000000.

(** The channel names 1.2.3, whose linux/amd64 binary is published;
    everything else is not found. *)
Definition serve (url : string) : Response + error :=
  if String.eqb url "https://example.com/tool/.version-latest" then
    inl (mkResponse 200 "200 OK" "1.2.3" None)
  else if String.eqb url "https://example.com/tool/1.2.3/tool_linux_amd64" then
    inl (mkResponse 200 "200 OK" "NEW-BINARY" None)
  else inl (mkResponse 404 "404 Not Found" "" None).

(** The binary arrives with status 200, but the connection breaks
    before the body is complete. *)
Definition cut_short (url : string) : Response + error :=
  if String.eqb url "https://example.com/tool/1.2.3/tool_linux_amd64" then
    inl (mkResponse 200 "200 OK" "NEW-BI" (Some (ErrorString "unexpected EOF")))
  else serve url.

(** The channel names 1.2.3, but no binary has been published for it. *)
Definition unpublished (url : string) : Response + error :=
  if String.eqb url "https://example.com/tool/.version-latest" then
    inl (mkResponse 200 "200 OK" "1.2.3" None)
  else inl (mkResponse 404 "404 Not Found" "" None).

Definition offline (url : string) : Response + error :=
  inr (UrlError "Get" url "dial tcp: connection refused").

Definition home : gmap string string := {[ "HOME" := "/home/u" ]}.

Definition no_faults : call → option error := λ _, None.

Definition copy_fails : call → option error := λ c,
  match c with
  | Copy _ _ => Some (ErrorString "write /usr/local/bin/tool: no space left on device")
  | _ => None
  end.

Definition rename_fails : call → option error := λ c,
  match c with
  | Rename old new => Some (LinkError "rename" old new "permission denied")
  | _ => None
  end.

Definition chmod_denied : call → option error := λ c,
  match c with
  | FileChmod name => Some (PathError "chmod" name "operation not permitted")
  | _ => None
  end.

Definition chmod_fails : call → option error := λ c,
  match c with
  | FileChmod _ => Some (ErrorString "invalid argument")
  | _ => None
  end.

Definition machine (env : gmap string string) (srv : string → Response + error)
    (flt : call → option error) : Host :=
  mkHost env now self "tool" "linux" "amd64" "/tmp"
         (λ dir pattern, [dir +:+ "/" +:+ pattern +:+ "123456789"])
         srv flt (Some "PARTIAL").

Definition original : File := mkFile "OLD-BINARY" 493 1600000000000000000.

Definition disk : gmap string File := {[ self := original ]}.

Definition start : State := mkState disk [].

(** The marker was touched one hour ago, or twenty-five hours ago. *)
Definition recent : State :=
  mkState (<[marker := mkFile "" 420 (now - Hour)]> disk) [].
Definition stale : State :=
  mkState (<[marker := mkFile "" 420 (now - 25 * Hour)]> disk) [].

Definition remove_fails : call → option error := λ c,
  match c with
  | Remove name => Some (PathError "remove" name "operation not permitted")
  | _ => None
  end.

(** The copy fails, and so does the rename that should bring the backup
    back. *)
Definition copy_and_recovery_fail : call → option error := λ c,
  match c with
  | Copy _ _ => Some (ErrorString "write /usr/local/bin/tool: no space left on device")
  | Rename old new =>
      if String.eqb old "/usr/local/bin/tool~" then
        Some (LinkError "rename" old new "read-only file system")
      else None
  | _ => None
  end.


Definition tempfile_fails : call → option error := λ c,
  match c with
  | TempFile dir _ => Some (PathError "open" "/tmp" "permission denied")
  | _ => None
  end.

Definition chmod_unsupported : call → option error := λ c,
  match c with
  | FileChmod name => Some (PathError "chmod" name "not supported by windows")
  | _ => None
  end.

Definition truncate_fails : call → option error := λ c,
  match c with
  | FileTruncate name => Some (PathError "truncate" name "read-only file system")
  | _ => None
  end.

(** A backup of an earlier upgrade is still lying around. *)
Definition leftover : State :=
  mkState (<[self +:+ "~" := mkFile "OLDER-BINARY" 493 1500000000000000000]> disk) [].

End Demo.


(** * Properties *)

Section Properties.
Context `{Semver} (h : Host).

Ltac run := unfold mbind, M_bind, mret, M_ret, print, panic in *; simpl in *.

Lemma AvailableVersion_run repo filePrefix channel s :
  AvailableVersion h repo filePrefix channel s =
  (Done (resolved h repo filePrefix channel),
   log (HttpGet (version_url repo filePrefix channel)) s).
Proof.
  unfold AvailableVersion, resolved, http_Get. run.
  destruct (server h _) as [resp|err]; [|reflexivity].
  destruct (StatusCode resp =? 200); simpl; [|reflexivity].
  destruct (BodyErr resp); reflexivity.
Qed.

(** C8. [AvailableVersion] performs exactly one call, a GET of
    repo + "/" + filePrefix + channel, and leaves the files alone.  A
    transport failure is returned as the error; a status other than 200
    is an error; with status 200 the result is the body parsed by
    [semver.Make] (so it fails when the body does not parse), unless
    reading the body itself failed, which is returned as the error. *)
Theorem AvailableVersion_spec (repo filePrefix channel : string) (s : State) :
  ∃ v err s',
    AvailableVersion h repo filePrefix channel s = (Done (v, err), s')
    ∧ trace s' = trace s ++ [HttpGet (repo +:+ "/" +:+ filePrefix +:+ channel)]
    ∧ fs s' = fs s
    ∧ match server h (repo +:+ "/" +:+ filePrefix +:+ channel) with
      | inr e => err = Some e
      | inl resp =>
          if StatusCode resp =? 200 then
            match BodyErr resp with
            | Some e => err = Some e
            | None => (v, err) = Make (Body resp)
            end
          else is_Some err
      end.
Proof.
  destruct (resolved h repo filePrefix channel) as [v err] eqn:R.
  exists v, err, (log (HttpGet (version_url repo filePrefix channel)) s).
  rewrite AvailableVersion_run, R. repeat split.
  unfold resolved, version_url in R.
  destruct (server h _) as [resp|e]; [|congruence].
  destruct (StatusCode resp =? 200).
  - destruct (BodyErr resp); congruence.
  - inversion R. eauto.
Qed.

(** *** The marker path *)

Lemma string_app_cons (x : ascii) (a b : string) :
  String x a +:+ b = String x (a +:+ b).
Proof. reflexivity. Qed.

Lemma string_app_nil_l (b : string) : "" +:+ b = b.
Proof. reflexivity. Qed.

Lemma string_app_nil_r (a : string) : a +:+ "" = a.
Proof.
  induction a as [|x a IH]; [reflexivity|].
  rewrite string_app_cons. by rewrite IH.
Qed.

Lemma string_app_assoc (a b c : string) : (a +:+ b) +:+ c = a +:+ (b +:+ c).
Proof.
  induction a as [|x a IH]; [reflexivity|].
  rewrite !string_app_cons. by rewrite IH.
Qed.

Lemma string_app_length (a b : string) :
  String.length (a +:+ b) = (String.length a + String.length b)%nat.
Proof.
  induction a as [|x a IH]; [reflexivity|].
  rewrite string_app_cons. simpl. by rewrite IH.
Qed.

Lemma contains_app (c : ascii) (a b : string) :
  contains c (a +:+ b) = contains c a || contains c b.
Proof.
  induction a as [|x a IH]; [reflexivity|].
  rewrite string_app_cons. simpl. rewrite IH. by rewrite orb_assoc.
Qed.

Lemma split_on_absent (sep : ascii) (s cur : string) :
  contains sep s = false → split_on sep cur s = [cur +:+ s].
Proof.
  revert cur. induction s as [|x s IH]; intros cur Hc; simpl in *.
  - by rewrite string_app_nil_r.
  - apply orb_false_iff in Hc as [Hx Hs]. rewrite Hx.
    rewrite (IH _ Hs). by rewrite string_app_assoc.
Qed.

(** A single path element that is neither empty nor "." nor ".." is
    already clean. *)
Lemma Clean_element (p : string) :
  contains "/" p = false → (1 < String.length p)%nat → p ≠ ".." →
  filepath_Clean p = p.
Proof.
  intros Hsep Hlen Hdd. unfold filepath_Clean.
  assert (String.eqb p "" = false) as Hne.
  { apply String.eqb_neq. intros ->. simpl in Hlen. lia. }
  rewrite Hne.
  assert (is_rooted p = false) as ->.
  { destruct p as [|c p]; [reflexivity|]. simpl in *.
    by apply orb_false_iff in Hsep as [-> _]. }
  rewrite (split_on_absent _ _ _ Hsep), string_app_nil_l. simpl.
  rewrite Hne.
  assert (String.eqb p "." = false) as ->.
  { apply String.eqb_neq. intros ->. simpl in Hlen. lia. }
  assert (String.eqb p ".." = false) as -> by by apply String.eqb_neq.
  simpl. by rewrite Hne.
Qed.

Lemma marker_name_long (tool : string) :
  (1 < String.length ("." +:+ tool +:+ "-version-check"))%nat
  ∧ "." +:+ tool +:+ "-version-check" ≠ "..".
Proof.
  assert (String.length ("." +:+ tool +:+ "-version-check")
          = (15 + String.length tool)%nat) as E.
  { rewrite !string_app_length. simpl. lia. }
  split; [lia|].
  intros E'. rewrite E' in E. simpl in E. lia.
Qed.

Lemma split_on_elements (sep : ascii) (s cur : string) :
  contains sep cur = false →
  Forall (λ e, contains sep e = false) (split_on sep cur s).
Proof.
  revert cur. induction s as [|x s IH]; intros cur Hcur; simpl.
  - by constructor.
  - destruct (Ascii.eqb x sep) eqn:Hx.
    + constructor; [exact Hcur|]. by apply IH.
    + apply IH. rewrite contains_app, Hcur. simpl. by rewrite Hx.
Qed.

Lemma clean_elems_elements (rooted : bool) (elems out : list string) :
  Forall element out →
  Forall (λ e, contains "/" e = false) elems →
  Forall element (clean_elems rooted out elems).
Proof.
  revert out. induction elems as [|e elems IH]; intros out Hout Hin; simpl.
  - by apply Forall_rev.
  - apply Forall_cons in Hin as [He Hin].
    destruct (String.eqb e "") eqn:E0; simpl; [by apply IH|].
    destruct (String.eqb e ".") eqn:E1; simpl; [by apply IH|].
    assert (element e) as Qe by (split; [by apply String.eqb_neq | exact He]).
    destruct (String.eqb e ".."); [|apply IH; [by constructor | exact Hin]].
    destruct out as [|top out'].
    + destruct rooted; apply IH; try exact Hin; [constructor|].
      constructor; [exact Qe | constructor].
    + destruct (String.eqb top ".."); apply IH; try exact Hin.
      * by constructor.
      * by apply Forall_cons in Hout as [_ Hout].
Qed.

Lemma join_sep_relative (l : list string) :
  Forall element l → is_rooted (join_sep l) = false.
Proof.
  destruct l as [|e l]; [reflexivity|]. intros [[He Hsep] _]%Forall_cons.
  assert (is_rooted e = false) as Hr.
  { destruct e as [|c e]; [done|]. simpl in *.
    by apply orb_false_iff in Hsep as [-> _]. }
  destruct e as [|c e]; [done|].
  simpl. destruct l; [exact Hr|]. rewrite string_app_cons. exact Hr.
Qed.

(** Cleaning keeps a relative path relative. *)
Lemma Clean_relative (p : string) :
  is_rooted p = false → is_rooted (filepath_Clean p) = false.
Proof.
  intros Hr. unfold filepath_Clean. rewrite Hr.
  destruct (String.eqb p ""); [reflexivity|].
  destruct (String.eqb (join_sep _) "") eqn:E; [reflexivity|].
  apply join_sep_relative, clean_elems_elements; [constructor|].
  by apply split_on_elements.
Qed.

Lemma CheckAndNotify_opens_marker
    tool currentVersion repo filePrefix versionStable hours upgradeCommand s :
  ∃ rest,
    trace (CheckAndNotifyIfOutOfDate h tool currentVersion repo filePrefix versionStable
             hours upgradeCommand s).2
    = trace s ++ OpenFile (marker_path h tool) :: rest.
Proof.
  unfold CheckAndNotifyIfOutOfDate, os_OpenFile, file_Stat, file_Truncate. run.
  repeat (case_match; run; simplify_eq/=);
    try rewrite AvailableVersion_run in *; simplify_eq/=;
    rewrite <- ?app_assoc; simpl; eauto.
Qed.

(** C10. With HOME and USERPROFILE both unset or empty, [GetHome] returns
    the empty string; the marker path is then [filepath.Join] of the
    single element ".<tool>-version-check", a relative path, which for a
    tool name without path separator is that very string; and the first
    thing [CheckAndNotifyIfOutOfDate] does is open that path. *)
Theorem GetHome_empty_marker_relative (tool : string) :
  (environ h !! "HOME" = None ∨ environ h !! "HOME" = Some "") →
  (environ h !! "USERPROFILE" = None ∨ environ h !! "USERPROFILE" = Some "") →
  GetHome h = ""
  ∧ marker_path h tool = filepath_Clean ("." +:+ tool +:+ "-version-check")
  ∧ is_rooted (marker_path h tool) = false
  ∧ (contains "/" tool = false → marker_path h tool = "." +:+ tool +:+ "-version-check")
  ∧ ∀ currentVersion repo filePrefix versionStable hours upgradeCommand s,
      ∃ rest,
        trace (CheckAndNotifyIfOutOfDate h tool currentVersion repo filePrefix
                 versionStable hours upgradeCommand s).2
        = trace s ++ OpenFile (marker_path h tool) :: rest.
Proof.
  intros Hhome Hprof.
  assert (GetHome h = "") as Hg.
  { unfold GetHome, os_Getenv.
    destruct Hhome as [-> | ->], Hprof as [-> | ->]; reflexivity. }
  assert (marker_path h tool = filepath_Clean ("." +:+ tool +:+ "-version-check")) as Hm.
  { unfold marker_path. rewrite Hg. reflexivity. }
  split; [exact Hg|]. split; [exact Hm|]. split; [|split].
  - rewrite Hm. by apply Clean_relative.
  - intros Hsep. rewrite Hm.
    destruct (marker_name_long tool) as [Hlen Hdd].
    apply Clean_element; [|exact Hlen|exact Hdd].
    rewrite !contains_app, Hsep. reflexivity.
  - intros. apply CheckAndNotify_opens_marker.
Qed.

(** *** The update gate *)

Lemma CheckAndNotify_skip tool cv repo fp ch hours cmd s :
  faults h (OpenFile (marker_path h tool)) = None →
  faults h (FileStat (marker_path h tool)) = None →
  gate_skips h tool hours s = true →
  ∃ s', CheckAndNotifyIfOutOfDate h tool cv repo fp ch hours cmd s = (Done (false, None), s')
        ∧ trace s' = trace s ++ [OpenFile (marker_path h tool); FileStat (marker_path h tool)].
Proof.
  intros Hopen Hstat Hskip. unfold gate_skips, marker_mtime in Hskip.
  unfold CheckAndNotifyIfOutOfDate, os_OpenFile, file_Stat. run.
  rewrite Hopen. destruct (fs s !! marker_path h tool) as [f|] eqn:Hfs; simpl;
    rewrite Hstat; simpl; rewrite ?Hfs, ?lookup_insert_eq; simpl; rewrite Hskip;
    eexists; (split; [reflexivity|]); simpl; by rewrite <- app_assoc.
Qed.

Lemma CheckAndNotify_pass tool cv repo fp ch hours cmd s :
  faults h (OpenFile (marker_path h tool)) = None →
  faults h (FileStat (marker_path h tool)) = None →
  faults h (FileTruncate (marker_path h tool)) = None →
  gate_skips h tool hours s = false →
  ∃ s' mode,
    CheckAndNotifyIfOutOfDate h tool cv repo fp ch hours cmd s
    = (Done (verdict h cv repo fp ch), s')
    ∧ fs s' = <[marker_path h tool := mkFile "" mode (clock h)]> (fs s)
    ∧ trace s' = trace s
                 ++ [OpenFile (marker_path h tool); FileStat (marker_path h tool);
                     FileTruncate (marker_path h tool)]
                 ++ after_claim h tool cv repo fp ch cmd.
Proof.
  intros Hopen Hstat Htrunc Hpass. unfold gate_skips, marker_mtime in Hpass.
  unfold CheckAndNotifyIfOutOfDate, os_OpenFile, file_Stat, file_Truncate,
    verdict, after_claim. run.
  rewrite Hopen. destruct (fs s !! marker_path h tool) as [f|] eqn:Hfs; simpl;
    rewrite Hstat; simpl; rewrite ?Hfs, ?lookup_insert_eq; simpl; rewrite Hpass;
    rewrite Htrunc; simpl; rewrite ?Hfs, ?lookup_insert_eq; simpl;
    destruct (CurrentVersion cv) as [curr [e|]]; simpl;
    rewrite ?AvailableVersion_run;
    try destruct (resolved h repo fp ch) as [avail [e|]]; simpl;
    try destruct (GT avail curr); simpl;
    eexists _, _; (split; [reflexivity|]); simpl;
    rewrite ?insert_insert_eq, <- ?app_assoc; split; reflexivity.
Qed.

(** C4. When the marker can be opened and its time read: if now minus the
    marker's modification time, in hours, is less than the configured
    hours, [CheckAndNotifyIfOutOfDate] returns false and nil after
    exactly the open and the stat (no request is sent).  Otherwise, the
    marker having been truncated, it returns false with the error when
    the current version does not parse or the available version cannot
    be resolved, and else whether the available version is greater than
    the current one. *)
Theorem CheckAndNotify_gate
    (tool currentVersion repo filePrefix versionStable : string) (hours : float)
    (upgradeCommand : string) (s : State) :
  faults h (OpenFile (marker_path h tool)) = None →
  faults h (FileStat (marker_path h tool)) = None →
  (gate_skips h tool hours s = true →
   ∃ s', CheckAndNotifyIfOutOfDate h tool currentVersion repo filePrefix versionStable
           hours upgradeCommand s = (Done (false, None), s')
         ∧ trace s' = trace s ++ [OpenFile (marker_path h tool);
                                  FileStat (marker_path h tool)])
  ∧ (gate_skips h tool hours s = false →
     faults h (FileTruncate (marker_path h tool)) = None →
     ∃ s', CheckAndNotifyIfOutOfDate h tool currentVersion repo filePrefix versionStable
             hours upgradeCommand s
           = (Done match CurrentVersion currentVersion with
                   | (_, Some e) => (false, Some e)
                   | (curr, None) =>
                       match (AvailableVersion h repo filePrefix versionStable s).1 with
                       | Done (avail, None) => (GT avail curr, None)
                       | Done (_, Some e) => (false, Some e)
                       | Panic _ => (false, None)
                       end
                   end, s')).
Proof.
  intros Hopen Hstat. split.
  - intros Hskip. by apply CheckAndNotify_skip.
  - intros Hpass Htrunc.
    destruct (CheckAndNotify_pass tool currentVersion repo filePrefix versionStable
                hours upgradeCommand s Hopen Hstat Htrunc Hpass) as (s' & mode & E & _).
    exists s'. rewrite E. rewrite AvailableVersion_run. unfold verdict. simpl.
    destruct (CurrentVersion currentVersion) as [curr [e|]]; [reflexivity|].
    by destruct (resolved h repo filePrefix versionStable) as [avail [e|]].
Qed.

(** C7. When the gate passes and the truncation is not refused, the
    marker is left empty with the current time as its modification time,
    whatever the version parse and the resolution then do; the
    truncation is the third call, and the only request, if any, comes
    after it. *)
Theorem CheckAndNotify_claims_before_request
    (tool currentVersion repo filePrefix versionStable : string) (hours : float)
    (upgradeCommand : string) (s : State) :
  faults h (OpenFile (marker_path h tool)) = None →
  faults h (FileStat (marker_path h tool)) = None →
  faults h (FileTruncate (marker_path h tool)) = None →
  gate_skips h tool hours s = false →
  ∃ r s' mode,
    CheckAndNotifyIfOutOfDate h tool currentVersion repo filePrefix versionStable
      hours upgradeCommand s = (Done r, s')
    ∧ fs s' !! marker_path h tool = Some (mkFile "" mode (clock h))
    ∧ trace s' = trace s
                 ++ [OpenFile (marker_path h tool); FileStat (marker_path h tool);
                     FileTruncate (marker_path h tool)]
                 ++ after_claim h tool currentVersion repo filePrefix versionStable
                      upgradeCommand
    ∧ Forall (λ c, ∀ name, c ≠ FileTruncate name ∧ c ≠ OpenFile name)
        (after_claim h tool currentVersion repo filePrefix versionStable upgradeCommand).
Proof.
  intros Hopen Hstat Htrunc Hpass.
  destruct (CheckAndNotify_pass tool currentVersion repo filePrefix versionStable
              hours upgradeCommand s Hopen Hstat Htrunc Hpass) as (s' & mode & E & Hfs & Htr).
  exists (verdict h currentVersion repo filePrefix versionStable), s', mode.
  split; [exact E|]. split; [by rewrite Hfs, lookup_insert_eq|]. split; [exact Htr|].
  unfold after_claim.
  destruct (CurrentVersion currentVersion) as [curr [e|]]; [constructor|].
  constructor; [done|].
  destruct (resolved h repo filePrefix versionStable) as [avail [e|]]; [constructor|].
  destruct (GT avail curr); repeat constructor; done.
Qed.

(** *** Download *)

Lemma fresh_name_absent (m : gmap string File) (names : list string) (n : string) :
  fresh_name m names = Some n → m !! n = None.
Proof.
  unfold fresh_name. intros Hf. apply find_some in Hf as [_ Hn].
  by apply bool_decide_eq_true in Hn.
Qed.

Lemma TempFile_ok dir pattern s tmp s1 :
  ioutil_TempFile h dir pattern s = (Done (tmp, None), s1) →
  fs s !! tmp = None
  ∧ fs s1 = <[tmp := mkFile "" 384 (clock h)]> (fs s)
  ∧ trace s1 = trace s ++ [TempFile dir pattern].
Proof.
  unfold ioutil_TempFile. intros E.
  destruct (faults h _); [simplify_eq|].
  destruct (fresh_name _ _) as [n|] eqn:Hn; simplify_eq/=.
  by apply fresh_name_absent in Hn.
Qed.

Lemma Chmod_result name mode s err s1 :
  file_Chmod h name mode s = (Done err, s1) →
  trace s1 = trace s ++ [FileChmod name]
  ∧ (fs s1 = fs s
     ∨ ∃ f, fs s !! name = Some f
            ∧ fs s1 = <[name := mkFile (contents f) mode (modtime f)]> (fs s)).
Proof.
  unfold file_Chmod. intros E.
  destruct (faults h _); [simplify_eq/=; by auto|].
  destruct (fs (log _ s) !! name) as [f|] eqn:Hf; simplify_eq/=; eauto.
Qed.

Lemma defer_run {A V} (body : M (A * V)) (deferred : V → M unit) (s : State) :
  defer body deferred s =
  match body s with
  | (Done (a, v), s') =>
      match deferred v s' with
      | (Done _, s'') => (Done a, s'')
      | (Panic r, s'') => (Panic r, s'')
      end
  | (Panic r, s') => (Panic r, s')
  end.
Proof.
  unfold defer. run. destruct (body s) as [[[a v]|r] s']; [|reflexivity].
  destruct (deferred v s') as [[u|r] s'']; reflexivity.
Qed.

(** The part of [Download] after the [defer] statement, when it reports
    success. *)
Lemma Download_rest_ok repo version tool t f s2 tmp s3 :
  fs s2 !! t = Some f →
  defer (Download_body h repo version tool t) (Download_deferred h t) s2
  = (Done (tmp, None), s3) →
  tmp = t
  ∧ ∃ resp,
      server h (binary_url h repo version tool) = inl resp
      ∧ StatusCode resp = 200
      ∧ fs s3 = <[t := mkFile (contents f +:+ Body resp) (perm f) (clock h)]> (fs s2).
Proof.
  intros Hf. rewrite defer_run.
  unfold Download_body, http_Get, io_Copy, Download_deferred, os_Remove. run.
  destruct (server h _) as [resp|e]; simpl.
  2:{ repeat case_match; intros; simplify_eq. }
  destruct (StatusCode resp =? 200) eqn:Hst; simpl; [|intros; simplify_eq].
  destruct (faults h (FileWrite t)); simpl; [intros; simplify_eq|].
  rewrite Hf. simpl.
  destruct (BodyErr resp); simpl; intros; simplify_eq.
  split; [reflexivity|]. exists resp. by rewrite Z.eqb_eq in Hst.
Qed.

(** A download that reports success has created a new file, and filled
    it with the body of a 200 response to the GET of the binary. *)
Lemma Download_ok repo version tool s tmp s3 :
  Download h repo version tool s = (Done (tmp, None), s3) →
  ∃ resp mode,
    server h (binary_url h repo version tool) = inl resp
    ∧ StatusCode resp = 200
    ∧ fs s !! tmp = None
    ∧ fs s3 = <[tmp := mkFile (Body resp) mode (clock h)]> (fs s).
Proof.
  unfold Download. run.
  destruct (ioutil_TempFile h "" _ s) as [[[t [e|]]|r] s1] eqn:Ht; simpl;
    [intros; simplify_eq| |intros; simplify_eq].
  apply TempFile_ok in Ht as (Habs & Hfs1 & _).
  destruct (file_Chmod h t 493 s1) as [[err|r] s2] eqn:Hc; simpl;
    [|intros; simplify_eq].
  assert (∃ mode, fs s2 = <[t := mkFile "" mode (clock h)]> (fs s)) as [mode Hfs2].
  { apply Chmod_result in Hc as [_ [E|(f & Hf & E)]].
    - exists 384%N. by rewrite E.
    - rewrite Hfs1, lookup_insert_eq in Hf. simplify_eq/=.
      exists 493%N. by rewrite E, Hfs1, insert_insert_eq. }
  assert (defer (Download_body h repo version tool t) (Download_deferred h t) s2
          = (Done (tmp, None), s3) →
          ∃ resp mode,
            server h (binary_url h repo version tool) = inl resp
            ∧ StatusCode resp = 200 ∧ fs s !! tmp = None
            ∧ fs s3 = <[tmp := mkFile (Body resp) mode (clock h)]> (fs s)) as Hrest.
  { intros E. eapply Download_rest_ok in E as (-> & resp & Hsrv & Hst & Hfs3);
      [|by rewrite Hfs2, lookup_insert_eq].
    exists resp, mode. rewrite Hfs3, Hfs2, insert_insert_eq. done. }
  destruct err as [[op path msg| | | |]|]; simpl; try (intros; simplify_eq; fail);
    [|exact Hrest].
  destruct (String.eqb msg "not supported by windows"); simpl;
    [exact Hrest | intros; simplify_eq].
Qed.

Lemma Chmod_keeps name mode s err s1 :
  file_Chmod h name mode s = (Done err, s1) →
  is_Some (fs s !! name) → is_Some (fs s1 !! name).
Proof.
  intros Hc Hs. apply Chmod_result in Hc as [_ [E|(f & _ & E)]]; rewrite E;
    [done | by rewrite lookup_insert_eq].
Qed.

(** After the [defer] statement: unless the GET itself fails, a failed
    download leaves the temporary file where it is. *)
Lemma Download_rest_keeps repo version tool t s2 r e s' :
  is_Some (fs s2 !! t) →
  (∀ e', server h (binary_url h repo version tool) ≠ inr e') →
  defer (Download_body h repo version tool t) (Download_deferred h t) s2
  = (Done (r, Some e), s') →
  is_Some (fs s' !! t).
Proof.
  intros [f Hf] Hsrv. rewrite defer_run.
  unfold Download_body, http_Get, io_Copy, Download_deferred. run.
  destruct (server h _) as [resp|e'] eqn:Hs; [|by destruct (Hsrv e')]. simpl.
  destruct (StatusCode resp =? 200); simpl.
  - destruct (faults h (FileWrite t)); simpl.
    + intros; simplify_eq/=. by rewrite Hf.
    + rewrite Hf. simpl. destruct (BodyErr resp); intros; simplify_eq/=.
      by rewrite lookup_insert_eq.
  - intros; simplify_eq/=. by rewrite Hf.
Qed.

(** C2 (what the code does). Once the temporary file exists, every
    failure of [Download] other than a failed GET (a refused chmod, a
    status other than 200, a failure while the body is written) returns
    the error and leaves the temporary file in place. *)
Theorem Download_error_keeps_temp_file
    (repo version tool : string) (s s1 s' : State) (tmp r : string) (e : error) :
  ioutil_TempFile h "" (tool +:+ "_upgrade") s = (Done (tmp, None), s1) →
  (∀ e', server h (binary_url h repo version tool) ≠ inr e') →
  Download h repo version tool s = (Done (r, Some e), s') →
  r = "" ∧ is_Some (fs s' !! tmp).
Proof.
  intros Ht Hsrv. unfold Download. run. rewrite Ht. simpl.
  apply TempFile_ok in Ht as (_ & Hfs1 & _).
  assert (is_Some (fs s1 !! tmp)) as H1 by by rewrite Hfs1, lookup_insert_eq.
  destruct (file_Chmod h tmp 493 s1) as [[err|p] s2] eqn:Hc; simpl;
    [|intros; simplify_eq].
  pose proof (Chmod_keeps _ _ _ _ _ Hc H1) as H2.
  assert (defer (Download_body h repo version tool tmp) (Download_deferred h tmp) s2
          = (Done (r, Some e), s') → r = "" ∧ is_Some (fs s' !! tmp)) as Hrest.
  { intros E. split; [|by eapply Download_rest_keeps].
    revert E. rewrite defer_run. unfold Download_body. run.
    repeat case_match; intros; simplify_eq/=; reflexivity. }
  destruct err as [[op path msg| | | |]|]; simpl; try (intros; simplify_eq; fail);
    [|exact Hrest].
  destruct (String.eqb msg "not supported by windows"); simpl; [exact Hrest|].
  intros; simplify_eq. done.
Qed.

(** The one failure after which the deferred clean-up does run: the GET
    itself fails. *)
Lemma Download_transport_failure_removes repo version tool s s1 tmp e :
  ioutil_TempFile h "" (tool +:+ "_upgrade") s = (Done (tmp, None), s1) →
  faults h (FileChmod tmp) = None →
  faults h (Remove tmp) = None →
  server h (binary_url h repo version tool) = inr e →
  ∃ s', Download h repo version tool s = (Done ("", Some e), s')
        ∧ fs s' !! tmp = None.
Proof.
  intros Ht Hc Hr Hsrv. unfold Download. run. rewrite Ht. simpl.
  apply TempFile_ok in Ht as (_ & Hfs1 & _).
  unfold file_Chmod. rewrite Hc. simpl. rewrite Hfs1, lookup_insert_eq. simpl.
  rewrite defer_run. unfold Download_body, http_Get, Download_deferred, os_Remove. run.
  rewrite Hsrv. simpl. rewrite Hr. simpl. rewrite lookup_insert_eq. simpl.
  eexists. split; [reflexivity|]. simpl. by rewrite lookup_delete_eq.
Qed.

(** C9. When the chmod of the temporary file returns an error: a
    [*os.PathError] whose inner message is "not supported by windows" is
    passed over and the download goes on; any other [*os.PathError] is
    returned; and an error of any other dynamic type makes the type
    assertion, hence [Download], panic. *)
Theorem Download_chmod_error
    (repo version tool : string) (s s1 s2 : State) (tmp : string) (e : error) :
  ioutil_TempFile h "" (tool +:+ "_upgrade") s = (Done (tmp, None), s1) →
  file_Chmod h tmp 493 s1 = (Done (Some e), s2) →
  match e with
  | PathError _ _ msg =>
      if String.eqb msg "not supported by windows" then
        Download h repo version tool s
        = defer (Download_body h repo version tool tmp) (Download_deferred h tmp) s2
      else Download h repo version tool s = (Done ("", Some e), s2)
  | _ => ∃ reason, Download h repo version tool s = (Panic reason, s2)
  end.
Proof.
  intros Ht Hc. unfold Download. run. rewrite Ht. simpl. rewrite Hc. simpl.
  destruct e as [op path msg| | | |]; simpl; eauto.
  destruct (String.eqb msg "not supported by windows"); reflexivity.
Qed.

(** *** Upgrade *)

Lemma backup_differs (p : string) : p ≠ p +:+ "~".
Proof.
  intros E. apply (f_equal String.length) in E.
  rewrite string_app_length in E. simpl in E. lia.
Qed.

Lemma RemoveBackup_ok s arg0 backup s2 :
  RemoveBackup h s = (Done (arg0, backup, None), s2) →
  arg0 = exe h ∧ backup = exe h +:+ "~"
  ∧ fs s2 = delete backup (fs s)
  ∧ trace s2 = trace s ++ [Executable; RemoveAll backup].
Proof.
  unfold RemoveBackup, os_Executable, os_RemoveAll. run.
  destruct (faults h Executable); simpl; [intros; simplify_eq|].
  destruct (faults h (RemoveAll _)); simpl; intros; simplify_eq.
  simpl. by rewrite <- app_assoc.
Qed.

Lemma Rename_ok oldpath newpath s s' :
  os_Rename h oldpath newpath s = (Done None, s') →
  ∃ f, fs s !! oldpath = Some f ∧ fs s' = <[newpath := f]> (delete oldpath (fs s)).
Proof.
  unfold os_Rename. destruct (faults h _); [intros; simplify_eq|]. simpl.
  destruct (fs s !! oldpath) as [f|] eqn:E; intros; simplify_eq/=. eauto.
Qed.

Lemma Rename_refused oldpath newpath s e s' :
  os_Rename h oldpath newpath s = (Done (Some e), s') → fs s' = fs s.
Proof.
  unfold os_Rename. destruct (faults h _); [by intros; simplify_eq|]. simpl.
  destruct (fs s !! oldpath) as [f|] eqn:E; by intros; simplify_eq/=.
Qed.

Lemma Copy_ok src dst follow s d s' :
  shutil_Copy h src dst follow s = (Done (d, None), s') →
  src ≠ dst
  ∧ ∃ f, fs s !! src = Some f
         ∧ fs s' = <[dst := mkFile (contents f) (perm f) (clock h)]> (fs s).
Proof.
  unfold shutil_Copy. destruct (faults h _); [intros; simplify_eq|].
  destruct (String.eqb src dst) eqn:E; [intros; simplify_eq|].
  apply String.eqb_neq in E. simpl.
  destruct (fs s !! src) as [f|] eqn:Hf; intros; simplify_eq/=. eauto.
Qed.

Lemma Copy_failed src dst follow s d e s' :
  shutil_Copy h src dst follow s = (Done (d, Some e), s') →
  ∀ p, p ≠ dst → fs s' !! p = fs s !! p.
Proof.
  unfold shutil_Copy. destruct (faults h _).
  - intros ? p Hp; simplify_eq. destruct (debris h); simpl; [|done].
    by rewrite lookup_insert_ne.
  - destruct (String.eqb src dst); [by intros; simplify_eq|]. simpl.
    destruct (fs s !! src); by intros; simplify_eq/=.
Qed.

Lemma Remove_ok name s s' :
  os_Remove h name s = (Done None, s') → fs s' = delete name (fs s).
Proof.
  unfold os_Remove. destruct (faults h _); [intros; simplify_eq|]. simpl.
  destruct (fs s !! name); by intros; simplify_eq/=.
Qed.

(** What the preparation has done to the files. *)
Lemma prepared_files tool cv repo fp ch s curr avail arg0 backup tmp s3 :
  prepared h tool cv repo fp ch s curr avail arg0 backup tmp s3 →
  arg0 = exe h ∧ backup = arg0 +:+ "~"
  ∧ ∃ resp mode,
      server h (binary_url h repo (Version_String avail) tool) = inl resp
      ∧ StatusCode resp = 200
      ∧ delete backup (fs s) !! tmp = None
      ∧ fs s3 = <[tmp := mkFile (Body resp) mode (clock h)]> (delete backup (fs s)).
Proof.
  intros (s1 & s2 & _ & Hav & Hrb & Hdl).
  rewrite AvailableVersion_run in Hav. simplify_eq.
  apply RemoveBackup_ok in Hrb as (-> & -> & Hfs2 & _).
  apply Download_ok in Hdl as (resp & mode & Hsrv & Hst & Habs & Hfs3).
  simpl in *. rewrite Hfs2 in *. eauto 10.
Qed.

(** The statements of [Upgrade] up to line 191 under [prepared]. *)
Ltac upgrade_prefix Hp Hneed :=
  let s1 := fresh "s1" in let s2 := fresh "s2" in
  let Hcur := fresh "Hcur" in let Hav := fresh "Hav" in
  let Hrb := fresh "Hrb" in let Hdl := fresh "Hdl" in
  destruct Hp as (s1 & s2 & Hcur & Hav & Hrb & Hdl);
  unfold Upgrade; rewrite Hcur; unfold mbind, M_bind, mret, M_ret; rewrite Hav;
  cbn [deref mret M_ret]; unfold mret, M_ret; rewrite Hneed, Hrb;
  unfold print; rewrite Hdl.

(** C5. With force false and the current version greater than or equal
    to the available one, [Upgrade] returns nil; the files are what they
    were, and its only calls are the GET of the version and the line it
    prints: no backup removal, no temporary file, no download of a
    binary, no rename, no copy. *)
Theorem Upgrade_up_to_date
    (tool currentVersion repo filePrefix versionStable : string) (s s1 : State)
    (curr avail : Version) :
  CurrentVersion currentVersion = (curr, None) →
  AvailableVersion h repo filePrefix versionStable s = (Done (avail, None), s1) →
  GTE curr avail = true →
  ∃ s',
    Upgrade h tool currentVersion repo filePrefix versionStable (Some false) s
    = (Done None, s')
    ∧ fs s' = fs s
    ∧ trace s' = trace s
                 ++ [HttpGet (version_url repo filePrefix versionStable);
                     Stdout (tool +:+ " is up-to-date. Go forth and be awesome!" +:+ nl)].
Proof.
  intros Hcur Hav Hgte. unfold Upgrade. rewrite Hcur. run. rewrite Hav. simpl.
  rewrite Hgte. simpl. eexists. split; [reflexivity|].
  rewrite AvailableVersion_run in Hav. simplify_eq/=.
  by rewrite <- app_assoc.
Qed.

(** C6. When [Upgrade] has downloaded the new binary and the rename of
    the executable to the backup path fails, [Upgrade] returns an error;
    the executable is at its path as it was before the call, and the
    downloaded temporary file is still there. *)
Theorem Upgrade_rename_to_backup_fails
    (tool currentVersion repo filePrefix versionStable : string) (force : bool)
    (s s3 s4 : State) (curr avail : Version) (arg0 backup tmp : string) (e : error) :
  prepared h tool currentVersion repo filePrefix versionStable s curr avail arg0 backup tmp s3 →
  negb force && GTE curr avail = false →
  is_Some (fs s !! arg0) →
  os_Rename h arg0 backup s3 = (Done (Some e), s4) →
  ∃ err resp mode,
    Upgrade h tool currentVersion repo filePrefix versionStable (Some force) s
    = (Done (Some err), s4)
    ∧ fs s4 !! arg0 = fs s !! arg0
    ∧ server h (binary_url h repo (Version_String avail) tool) = inl resp
    ∧ fs s4 !! tmp = Some (mkFile (Body resp) mode (clock h)).
Proof.
  intros Hp Hneed [orig Horig] Hmv.
  destruct (prepared_files _ _ _ _ _ _ _ _ _ _ _ _ Hp)
    as (-> & -> & resp & mode & Hsrv & _ & Habs & Hfs3).
  upgrade_prefix Hp Hneed. rewrite Hmv. simpl.
  apply Rename_refused in Hmv.
  eexists _, resp, mode. split; [reflexivity|]. rewrite Hmv, Hfs3.
  assert (tmp ≠ exe h) as Hne.
  { intros ->. rewrite lookup_delete_ne in Habs by apply not_eq_sym, backup_differs.
    congruence. }
  rewrite lookup_insert_ne by done.
  rewrite lookup_delete_ne by apply not_eq_sym, backup_differs.
  by rewrite lookup_insert_eq.
Qed.

Lemma GT_not_GTE (v o : Version) : GT v o = true → GTE o v = false.
Proof.
  unfold GT, GTE. intros Hgt. apply Z.eqb_eq, Compare_antisym in Hgt.
  rewrite Hgt. reflexivity.
Qed.

(** C3. When the available version is greater than the current one and
    every step of [Upgrade] succeeds (the preparation, the rename to the
    backup path, the copy, the removal of the temporary file), with a
    temporary file that is not the backup path, [Upgrade] returns nil;
    the file at the executable's path then holds exactly the body the
    server sent, with status 200, for the binary of the available
    version, and the backup path holds the original executable. *)
Theorem Upgrade_success_installs
    (tool currentVersion repo filePrefix versionStable : string) (force : bool)
    (s s3 s4 s5 s6 : State) (curr avail : Version) (arg0 backup tmp d : string) :
  prepared h tool currentVersion repo filePrefix versionStable s curr avail arg0 backup tmp s3 →
  GT avail curr = true →
  tmp ≠ backup →
  os_Rename h arg0 backup s3 = (Done None, s4) →
  shutil_Copy h tmp arg0 false s4 = (Done (d, None), s5) →
  os_Remove h tmp s5 = (Done None, s6) →
  ∃ resp mode orig,
    Upgrade h tool currentVersion repo filePrefix versionStable (Some force) s
    = (Done None, s6)
    ∧ server h (binary_url h repo (Version_String avail) tool) = inl resp
    ∧ StatusCode resp = 200
    ∧ fs s6 !! arg0 = Some (mkFile (Body resp) mode (clock h))
    ∧ backup = arg0 +:+ "~"
    ∧ fs s !! arg0 = Some orig
    ∧ fs s6 !! backup = Some orig.
Proof.
  intros Hp Hgt Htmp Hmv Hcp Hrm.
  destruct (prepared_files _ _ _ _ _ _ _ _ _ _ _ _ Hp)
    as (-> & -> & resp & mode & Hsrv & Hst & Habs & Hfs3).
  assert (negb force && GTE curr avail = false) as Hneed.
  { rewrite (GT_not_GTE _ _ Hgt). apply andb_false_r. }
  upgrade_prefix Hp Hneed. rewrite Hmv. simpl. rewrite Hcp. simpl. rewrite Hrm. simpl.
  apply Rename_ok in Hmv as (orig & Horig & Hfs4).
  apply Copy_ok in Hcp as (Hne & f & Hf & Hfs5).
  apply Remove_ok in Hrm.
  pose proof (backup_differs (exe h)) as Hb.
  rewrite Hfs3, lookup_insert_ne, lookup_delete_ne in Horig by done.
  rewrite Hfs4, lookup_insert_ne, lookup_delete_ne, Hfs3, lookup_insert_eq in Hf by done.
  simplify_eq/=.
  exists resp, mode, orig. split; [reflexivity|].
  rewrite Hrm, Hfs5.
  rewrite lookup_delete_ne, lookup_insert_eq by done.
  rewrite lookup_delete_ne, lookup_insert_ne, Hfs4, lookup_insert_eq by done.
  done.
Qed.

(** C1 (what the code does). When [Upgrade] has downloaded the new
    binary and moved the executable to the backup path, the copy fails
    and the rename of the backup to the executable's path succeeds, the
    original file is back at the executable's path and the temporary
    file is kept; but the value [Upgrade] returns is nil: the error it
    wraps is the one of the successful recovery rename. *)
Theorem Upgrade_recovered_returns_nil
    (tool currentVersion repo filePrefix versionStable : string) (force : bool)
    (s s3 s4 s5 s6 : State) (curr avail : Version) (arg0 backup tmp d : string)
    (orig : File) (e : error) :
  prepared h tool currentVersion repo filePrefix versionStable s curr avail arg0 backup tmp s3 →
  negb force && GTE curr avail = false →
  fs s !! arg0 = Some orig →
  tmp ≠ backup →
  os_Rename h arg0 backup s3 = (Done None, s4) →
  shutil_Copy h tmp arg0 false s4 = (Done (d, Some e), s5) →
  os_Rename h backup arg0 s5 = (Done None, s6) →
  Upgrade h tool currentVersion repo filePrefix versionStable (Some force) s
  = (Done None, s6)
  ∧ fs s6 !! arg0 = Some orig
  ∧ is_Some (fs s6 !! tmp).
Proof.
  intros Hp Hneed Horig Htmp Hmv Hcp Hback.
  destruct (prepared_files _ _ _ _ _ _ _ _ _ _ _ _ Hp)
    as (-> & -> & resp & mode & Hsrv & Hst & Habs & Hfs3).
  upgrade_prefix Hp Hneed. rewrite Hmv. simpl. rewrite Hcp. simpl. rewrite Hback. simpl.
  split; [reflexivity|].
  pose proof (backup_differs (exe h)) as Hb.
  assert (tmp ≠ exe h) as Hne.
  { intros ->. rewrite lookup_delete_ne in Habs by done. congruence. }
  apply Rename_ok in Hmv as (orig' & Horig' & Hfs4).
  rewrite Hfs3, lookup_insert_ne, lookup_delete_ne in Horig' by done.
  simplify_eq.
  pose proof (Copy_failed _ _ _ _ _ _ _ Hcp) as Hfs5.
  apply Rename_ok in Hback as (f & Hf & Hfs6).
  rewrite Hfs5, Hfs4, lookup_insert_eq in Hf by done. simplify_eq.
  rewrite Hfs6. split; [by rewrite lookup_insert_eq|].
  rewrite lookup_insert_ne, lookup_delete_ne, Hfs5, Hfs4 by done.
  rewrite lookup_insert_ne, lookup_delete_ne, Hfs3, lookup_insert_eq by done.
  done.
Qed.

End Properties.

(** * Concrete runs *)

Import Demo.

(** A run is settled by evaluating it. *)
Ltac by_running :=
  lazymatch goal with
  | |- ?run = _ =>
      let v := eval vm_compute in run in
      transitivity v; [vm_compute; reflexivity | reflexivity]
  end.

(** 1.2.2 is installed, the channel names 1.2.3 and nothing fails: the
    new binary is installed and the old one is the backup. *)
Lemma Upgrade_success_installs_witness :
  ∃ s6 resp mode orig,
    Upgrade (H := Release.semver) (machine home serve no_faults)
      "tool" "1.2.2" repo ".version-" "latest" (Some false) start
    = (Done None, s6)
    ∧ serve "https://example.com/tool/1.2.3/tool_linux_amd64" = inl resp
    ∧ StatusCode resp = 200
    ∧ fs s6 !! self = Some (mkFile (Body resp) mode now)
    ∧ self +:+ "~" = self +:+ "~"
    ∧ disk !! self = Some orig
    ∧ fs s6 !! (self +:+ "~") = Some orig.
Proof.
  eexists.
  eapply (Upgrade_success_installs (H := Release.semver) (machine home serve no_faults)
            "tool" "1.2.2" repo ".version-" "latest" false start _ _ _ _
            (1, 2, 2)%N (1, 2, 3)%N self (self +:+ "~") tmpname).
  - eexists _, _. split; [reflexivity|]. split; [by_running|]. split; by_running.
  - reflexivity.
  - discriminate.
  - by_running.
  - by_running.
  - by_running.
Defined.

(** The same upgrade on a machine whose copy fails. *)
Lemma Upgrade_recovered_returns_nil_witness :
  ∃ s6,
    Upgrade (H := Release.semver) (machine home serve copy_fails)
      "tool" "1.2.2" repo ".version-" "latest" (Some false) start
    = (Done None, s6)
    ∧ fs s6 !! self = Some original
    ∧ is_Some (fs s6 !! tmpname).
Proof.
  eexists.
  eapply (Upgrade_recovered_returns_nil (H := Release.semver) (machine home serve copy_fails)
            "tool" "1.2.2" repo ".version-" "latest" false start _ _ _ _
            (1, 2, 2)%N (1, 2, 3)%N self (self +:+ "~") tmpname).
  - eexists _, _. split; [reflexivity|]. split; [by_running|]. split; by_running.
  - reflexivity.
  - reflexivity.
  - discriminate.
  - by_running.
  - by_running.
  - by_running.
Defined.

(** The same upgrade on a machine that refuses every rename. *)
Lemma Upgrade_rename_to_backup_fails_witness :
  ∃ s4 err resp mode,
    Upgrade (H := Release.semver) (machine home serve rename_fails)
      "tool" "1.2.2" repo ".version-" "latest" (Some false) start
    = (Done (Some err), s4)
    ∧ fs s4 !! self = disk !! self
    ∧ serve "https://example.com/tool/1.2.3/tool_linux_amd64" = inl resp
    ∧ fs s4 !! tmpname = Some (mkFile (Body resp) mode now).
Proof.
  eexists.
  eapply (Upgrade_rename_to_backup_fails (H := Release.semver)
            (machine home serve rename_fails)
            "tool" "1.2.2" repo ".version-" "latest" false start _ _
            (1, 2, 2)%N (1, 2, 3)%N self (self +:+ "~") tmpname).
  - eexists _, _. split; [reflexivity|]. split; [by_running|]. split; by_running.
  - reflexivity.
  - eexists. reflexivity.
  - by_running.
Defined.

(** 1.2.3 is installed and the channel names 1.2.3. *)
Lemma Upgrade_up_to_date_witness :
  ∃ s',
    Upgrade (H := Release.semver) (machine home serve no_faults)
      "tool" "1.2.3" repo ".version-" "latest" (Some false) start
    = (Done None, s')
    ∧ fs s' = disk
    ∧ trace s' = [] ++ [HttpGet (version_url repo ".version-" "latest");
                        Stdout ("tool" +:+ " is up-to-date. Go forth and be awesome!" +:+ nl)].
Proof.
  eapply (Upgrade_up_to_date (H := Release.semver) (machine home serve no_faults)
            "tool" "1.2.3" repo ".version-" "latest" start _ (1, 2, 3)%N (1, 2, 3)%N).
  - reflexivity.
  - by_running.
  - reflexivity.
Defined.

(** The binary of 1.2.4 is not published: the server answers 404. *)
Lemma Download_error_keeps_temp_file_witness :
  Download (machine home serve no_faults) repo "1.2.4" "tool" start
  = (Done ("", Some (ErrorString "while getting updated binary; unexpected status 404 Not Found")),
     (Download (machine home serve no_faults) repo "1.2.4" "tool" start).2)
  ∧ "" = ""
  ∧ is_Some (fs (Download (machine home serve no_faults) repo "1.2.4" "tool" start).2
             !! tmpname).
Proof.
  assert (Download (machine home serve no_faults) repo "1.2.4" "tool" start
          = (Done ("", Some (ErrorString
                               "while getting updated binary; unexpected status 404 Not Found")),
             (Download (machine home serve no_faults) repo "1.2.4" "tool" start).2)) as E
    by (vm_compute; reflexivity).
  split; [exact E|].
  eapply (Download_error_keeps_temp_file (machine home serve no_faults) repo "1.2.4" "tool"
            start).
  - by_running.
  - intros e'. vm_compute. discriminate.
  - exact E.
Defined.

(** A chmod error that is not a [*os.PathError]. *)
Lemma Download_chmod_error_witness :
  ∃ s2 reason,
    Download (machine home serve chmod_fails) repo "1.2.3" "tool" start = (Panic reason, s2).
Proof.
  eexists.
  eapply (Download_chmod_error (machine home serve chmod_fails) repo "1.2.3" "tool"
            start _ _ tmpname (ErrorString "invalid argument")).
  - by_running.
  - by_running.
Defined.

(** A process with an empty environment. *)
Lemma GetHome_empty_marker_relative_witness :
  GetHome (machine ∅ serve no_faults) = ""
  ∧ marker_path (machine ∅ serve no_faults) "tool"
    = filepath_Clean ("." +:+ "tool" +:+ "-version-check")
  ∧ is_rooted (marker_path (machine ∅ serve no_faults) "tool") = false
  ∧ (contains "/" "tool" = false
     → marker_path (machine ∅ serve no_faults) "tool" = "." +:+ "tool" +:+ "-version-check")
  ∧ ∀ currentVersion repo filePrefix versionStable hours upgradeCommand s,
      ∃ rest,
        trace (CheckAndNotifyIfOutOfDate (H := Release.semver) (machine ∅ serve no_faults)
                 "tool" currentVersion repo filePrefix versionStable hours upgradeCommand s).2
        = trace s ++ OpenFile (marker_path (machine ∅ serve no_faults) "tool") :: rest.
Proof.
  apply (GetHome_empty_marker_relative (H := Release.semver) (machine ∅ serve no_faults) "tool").
  - left. reflexivity.
  - left. reflexivity.
Defined.

(** A check every 24 hours: one hour after the last check nothing is
    asked; after 25 hours 1.2.2 is out of date and 1.2.3 is not. *)
Lemma CheckAndNotify_gate_witness :
  (∃ s',
     CheckAndNotifyIfOutOfDate (H := Release.semver) (machine home serve no_faults)
       "tool" "1.2.2" repo ".version-" "latest" 24%float "tool upgrade" recent
     = (Done (false, None), s')
     ∧ trace s' = [OpenFile marker; FileStat marker])
  ∧ (∃ s',
       CheckAndNotifyIfOutOfDate (H := Release.semver) (machine home serve no_faults)
         "tool" "1.2.2" repo ".version-" "latest" 24%float "tool upgrade" stale
       = (Done (true, None), s'))
  ∧ (∃ s',
       CheckAndNotifyIfOutOfDate (H := Release.semver) (machine home serve no_faults)
         "tool" "1.2.3" repo ".version-" "latest" 24%float "tool upgrade" stale
       = (Done (false, None), s')).
Proof.
  split; [|split].
  - apply (proj1 (CheckAndNotify_gate (H := Release.semver) (machine home serve no_faults)
                    "tool" "1.2.2" repo ".version-" "latest" 24%float "tool upgrade" recent
                    eq_refl eq_refl)).
    vm_compute. reflexivity.
  - apply (proj2 (CheckAndNotify_gate (H := Release.semver) (machine home serve no_faults)
                    "tool" "1.2.2" repo ".version-" "latest" 24%float "tool upgrade" stale
                    eq_refl eq_refl)).
    + vm_compute. reflexivity.
    + reflexivity.
  - apply (proj2 (CheckAndNotify_gate (H := Release.semver) (machine home serve no_faults)
                    "tool" "1.2.3" repo ".version-" "latest" 24%float "tool upgrade" stale
                    eq_refl eq_refl)).
    + vm_compute. reflexivity.
    + reflexivity.
Defined.

(** The gate passes and the server cannot be reached: the marker is
    refreshed all the same. *)
Lemma CheckAndNotify_claims_before_request_witness :
  ∃ r s' mode,
    CheckAndNotifyIfOutOfDate (H := Release.semver) (machine home offline no_faults)
      "tool" "1.2.2" repo ".version-" "latest" 24%float "tool upgrade" stale
    = (Done r, s')
    ∧ fs s' !! marker = Some (mkFile "" mode now)
    ∧ trace s' = [OpenFile marker; FileStat marker; FileTruncate marker;
                  HttpGet "https://example.com/tool/.version-latest"]
    ∧ Forall (λ c, ∀ name, c ≠ FileTruncate name ∧ c ≠ OpenFile name)
        [HttpGet "https://example.com/tool/.version-latest"].
Proof.
  apply (CheckAndNotify_claims_before_request (H := Release.semver)
           (machine home offline no_faults)
           "tool" "1.2.2" repo ".version-" "latest" 24%float "tool upgrade" stale).
  - reflexivity.
  - reflexivity.
  - reflexivity.
  - vm_compute. reflexivity.
Defined.

(** C1 (the failing run). The copy is refused and the recovery rename
    succeeds: the original is back at the executable's path, the backup
    path is empty again, the downloaded file is kept, and [Upgrade]
    returns nil where an error was due. *)
Lemma Upgrade_recovery_reports_no_error :
  let r := Upgrade (H := Release.semver) (machine home serve copy_fails)
             "tool" "1.2.2" repo ".version-" "latest" (Some false) start in
  r.1 = Done None
  ∧ fs r.2 !! self = Some original
  ∧ fs r.2 !! (self +:+ "~") = None
  ∧ fs r.2 !! tmpname = Some (mkFile "NEW-BINARY" 493 now)
  ∧ trace r.2 = [HttpGet "https://example.com/tool/.version-latest";
                 Executable;
                 RemoveAll "/usr/local/bin/tool~";
                 Stdout ("upgrading /usr/local/bin/tool to 1.2.3" +:+ nl);
                 TempFile "" "tool_upgrade";
                 FileChmod tmpname;
                 HttpGet "https://example.com/tool/1.2.3/tool_linux_amd64";
                 FileWrite tmpname;
                 Rename self "/usr/local/bin/tool~";
                 Copy tmpname self;
                 Rename "/usr/local/bin/tool~" self].
Proof. vm_compute. repeat split; reflexivity. Qed.

(** C2 (the failing runs). A 404 for the binary, a body that breaks off
    and a refused chmod each make [Download] return the error with the
    temporary file still on disk and no call to remove it; only when the
    GET itself fails is the file removed. *)
Lemma Download_failures_leave_temp_file :
  (let r := Download (machine home serve no_faults) repo "1.2.4" "tool" start in
   r.1 = Done ("", Some (ErrorString
                           "while getting updated binary; unexpected status 404 Not Found"))
   ∧ fs r.2 !! tmpname = Some (mkFile "" 493 now)
   ∧ trace r.2 = [TempFile "" "tool_upgrade"; FileChmod tmpname;
                  HttpGet "https://example.com/tool/1.2.4/tool_linux_amd64"])
  ∧ (let r := Download (machine home cut_short no_faults) repo "1.2.3" "tool" start in
     r.1 = Done ("", Some (ErrorString "unexpected EOF"))
     ∧ fs r.2 !! tmpname = Some (mkFile "NEW-BI" 493 now)
     ∧ trace r.2 = [TempFile "" "tool_upgrade"; FileChmod tmpname;
                    HttpGet "https://example.com/tool/1.2.3/tool_linux_amd64";
                    FileWrite tmpname])
  ∧ (let r := Download (machine home serve chmod_denied) repo "1.2.3" "tool" start in
     r.1 = Done ("", Some (PathError "chmod" tmpname "operation not permitted"))
     ∧ fs r.2 !! tmpname = Some (mkFile "" 384 now)
     ∧ trace r.2 = [TempFile "" "tool_upgrade"; FileChmod tmpname])
  ∧ (let r := Download (machine home offline no_faults) repo "1.2.3" "tool" start in
     r.1 = Done ("", Some (UrlError "Get" "https://example.com/tool/1.2.3/tool_linux_amd64"
                             "dial tcp: connection refused"))
     ∧ fs r.2 !! tmpname = None
     ∧ trace r.2 = [TempFile "" "tool_upgrade"; FileChmod tmpname;
                    HttpGet "https://example.com/tool/1.2.3/tool_linux_amd64";
                    Remove tmpname]).
Proof. vm_compute. repeat split; reflexivity. Qed.

(** * Further properties of the package *)

Section Further.
Context `{Semver} (h : Host).

Ltac step := unfold mbind, M_bind, mret, M_ret, print, panic in *; simpl in *.

(** No element of an explicit list of calls is a GET. *)
Ltac no_get :=
  let url := fresh "url" in let Hin := fresh "Hin" in
  intros url Hin;
  repeat (apply elem_of_cons in Hin as [Hin|Hin]; [discriminate|]);
  by apply elem_of_nil in Hin.

(** *** paths.go: GetHome *)

(** HOME wins over USERPROFILE: a non-empty HOME is the home directory,
    and the marker then lives under it, whatever USERPROFILE says;
    USERPROFILE is consulted only when HOME is unset or empty. *)
Theorem GetHome_precedence (home tool : string) :
  (environ h !! "HOME" = Some home ∧ home ≠ "" →
   GetHome h = home
   ∧ marker_path h tool
     = filepath_Clean (home +:+ "/" +:+ "." +:+ tool +:+ "-version-check"))
  ∧ (environ h !! "HOME" = None ∨ environ h !! "HOME" = Some "" →
     GetHome h = default "" (environ h !! "USERPROFILE")).
Proof.
  split.
  - intros [Hh Hne].
    assert (GetHome h = home) as Hg.
    { unfold GetHome, os_Getenv. rewrite Hh. simpl.
      apply String.eqb_neq in Hne. by rewrite Hne. }
    split; [exact Hg|]. unfold marker_path. rewrite Hg. simpl.
    apply String.eqb_neq in Hne. by rewrite Hne.
  - unfold GetHome, os_Getenv. by intros [-> | ->].
Qed.

(** *** RemoveBackup *)



(** Removing the backup twice is the same as removing it once: a second
    [RemoveBackup] succeeds with the same paths and changes no file. *)
Theorem RemoveBackup_twice (s s1 : State) (arg0 backup : string) :
  RemoveBackup h s = (Done (arg0, backup, None), s1) →
  ∃ s2, RemoveBackup h s1 = (Done (arg0, backup, None), s2) ∧ fs s2 = fs s1.
Proof.
  unfold RemoveBackup, os_Executable, os_RemoveAll. step.
  destruct (faults h Executable) eqn:He; simpl; [intros; simplify_eq|].
  destruct (faults h (RemoveAll _)) eqn:Hr; simpl; intros; simplify_eq.
  eexists. split; [reflexivity|]. simpl.
  apply delete_id, lookup_delete_eq.
Qed.

(** *** Download *)

(** After the [defer] statement, whatever happens, only the temporary
    file changes. *)
Lemma Download_rest_frame repo version tool t s2 o s' :
  defer (Download_body h repo version tool t) (Download_deferred h t) s2 = (o, s') →
  ∀ p, p ≠ t → fs s' !! p = fs s2 !! p.
Proof.
  rewrite defer_run.
  unfold Download_body, http_Get, io_Copy, Download_deferred, os_Remove. step.
  intros E p Hp. revert E.
  repeat case_match; intros; simplify_eq/=;
    rewrite ?lookup_insert_ne, ?lookup_delete_ne by done; done.
Qed.

Lemma Download_frame repo version tool s o s' :
  Download h repo version tool s = (o, s') →
  ∀ p, is_Some (fs s !! p) → fs s' !! p = fs s !! p.
Proof.
  unfold Download. step.
  destruct (ioutil_TempFile h "" _ s) as [[[t [e|]]|r] s1] eqn:Ht; simpl.
  - intros; simplify_eq. revert Ht. unfold ioutil_TempFile.
    repeat case_match; intros; simplify_eq/=; done.
  - apply TempFile_ok in Ht as (Habs & Hfs1 & _).
    intros E p [f Hp].
    assert (p ≠ t) as Hne by (intros ->; congruence).
    assert (fs s1 !! p = fs s !! p) as H1 by by rewrite Hfs1, lookup_insert_ne.
    destruct (file_Chmod h t 493 s1) as [[err|r] s2] eqn:Hc; simpl in E.
    + assert (fs s2 !! p = fs s !! p) as H2.
      { apply Chmod_result in Hc as [_ [Eq|(g & _ & Eq)]]; rewrite Eq;
          [done | by rewrite lookup_insert_ne]. }
      assert (∀ o', defer (Download_body h repo version tool t) (Download_deferred h t) s2
                    = (o', s') → fs s' !! p = fs s !! p) as Hrest.
      { intros o' E'. rewrite <- H2. by eapply Download_rest_frame. }
      destruct err as [[op path msg| | | |]|]; simpl in E;
        try (simplify_eq; exact H2); [|by eapply Hrest].
      destruct (String.eqb msg "not supported by windows"); simpl in E;
        [by eapply Hrest | simplify_eq; exact H2].
    + simplify_eq. revert Hc. unfold file_Chmod. repeat case_match; intros; simplify_eq.
  - intros; simplify_eq. revert Ht. unfold ioutil_TempFile.
    repeat case_match; intros; simplify_eq/=.
Qed.

(** However [Download] ends (a path, an error, even a panic), every file
    that existed before the call is still there, unchanged: the only
    file it ever writes or removes is the temporary file it created. *)
Theorem Download_never_touches_existing
    (repo version tool : string) (s s' : State) (o : outcome (string * option error))
    (p : string) (f : File) :
  Download h repo version tool s = (o, s') →
  fs s !! p = Some f →
  fs s' !! p = Some f.
Proof.
  intros E Hp. rewrite <- Hp. eapply Download_frame; [exact E | by rewrite Hp].
Qed.

(** A successful [Download] made exactly four calls: it created the
    temporary file, set its mode, sent one GET to
    repo/version/tool_GOOS_GOARCH and wrote the body.  The response had
    status 200; the path returned did not exist before and now holds
    exactly the body, with mode 0755, or 0600 when the platform does not
    support chmod. *)
Theorem Download_success
    (repo version tool : string) (s s' : State) (tmp : string) :
  Download h repo version tool s = (Done (tmp, None), s') →
  ∃ resp mode,
    server h (repo +:+ "/" +:+ version +:+ "/" +:+ tool +:+ "_" +:+ GOOS h +:+ "_"
              +:+ GOARCH h) = inl resp
    ∧ StatusCode resp = 200
    ∧ BodyErr resp = None
    ∧ fs s !! tmp = None
    ∧ fs s' = <[tmp := mkFile (Body resp) mode (clock h)]> (fs s)
    ∧ (mode = 493%N ∨ mode = 384%N ∧ ∃ op path,
         faults h (FileChmod tmp) = Some (PathError op path "not supported by windows"))
    ∧ trace s' = trace s
                 ++ [TempFile "" (tool +:+ "_upgrade"); FileChmod tmp;
                     HttpGet (repo +:+ "/" +:+ version +:+ "/" +:+ tool +:+ "_" +:+ GOOS h
                              +:+ "_" +:+ GOARCH h);
                     FileWrite tmp].
Proof.
  unfold Download. step.
  destruct (ioutil_TempFile h "" _ s) as [[[t [e|]]|r] s1] eqn:Ht; simpl;
    [intros; simplify_eq| |intros; simplify_eq].
  apply TempFile_ok in Ht as (Habs & Hfs1 & Htr1).
  assert (∀ s2 mode,
    fs s2 = <[t := mkFile "" mode (clock h)]> (fs s) →
    trace s2 = trace s ++ [TempFile "" (tool +:+ "_upgrade"); FileChmod t] →
    defer (Download_body h repo version tool t) (Download_deferred h t) s2
    = (Done (tmp, None), s') →
    ∃ resp,
      server h (binary_url h repo version tool) = inl resp
      ∧ StatusCode resp = 200 ∧ BodyErr resp = None ∧ tmp = t
      ∧ fs s' = <[t := mkFile (Body resp) mode (clock h)]> (fs s)
      ∧ trace s' = trace s
                   ++ [TempFile "" (tool +:+ "_upgrade"); FileChmod t;
                       HttpGet (binary_url h repo version tool); FileWrite t]) as Hrest.
  { intros s2 mode Hfs2 Htr2. rewrite defer_run.
    unfold Download_body, http_Get, io_Copy, Download_deferred, os_Remove. step.
    destruct (server h _) as [resp|e]; simpl.
    2:{ repeat case_match; intros; simplify_eq. }
    destruct (StatusCode resp =? 200) eqn:Hst; simpl; [|intros; simplify_eq].
    destruct (faults h (FileWrite t)); simpl; [intros; simplify_eq|].
    rewrite Hfs2, lookup_insert_eq. simpl.
    destruct (BodyErr resp) eqn:Hb; simpl; intros; simplify_eq.
    exists resp. simpl. rewrite insert_insert_eq, Htr2, <- !app_assoc. simpl.
    repeat split; [by apply Z.eqb_eq | done]. }
  unfold file_Chmod. destruct (faults h (FileChmod t)) as [err|] eqn:Hflt; simpl.
  - destruct err as [op path msg| | | |]; simpl; try (intros; simplify_eq; fail).
    destruct (String.eqb msg "not supported by windows") eqn:Hmsg; simpl;
      [|intros; simplify_eq].
    apply String.eqb_eq in Hmsg as ->. intros E.
    apply (Hrest _ 384%N) in E as (resp & ? & ? & ? & -> & ? & ?);
      [|done|simpl; by rewrite Htr1, <- app_assoc].
    exists resp, 384%N. repeat split; eauto.
  - rewrite Hfs1, lookup_insert_eq. simpl. intros E.
    apply (Hrest _ 493%N) in E as (resp & ? & ? & ? & -> & ? & ?);
      [|simpl; by rewrite insert_insert_eq|simpl; by rewrite Htr1, <- app_assoc].
    exists resp, 493%N. repeat split; eauto.
Qed.

(** When the temporary file cannot be created, [Download] returns that
    error having sent no request and changed no file. *)
Theorem Download_without_temp_file
    (repo version tool : string) (s s1 : State) (name : string) (e : error) :
  ioutil_TempFile h "" (tool +:+ "_upgrade") s = (Done (name, Some e), s1) →
  Download h repo version tool s = (Done ("", Some e), s1)
  ∧ fs s1 = fs s
  ∧ trace s1 = trace s ++ [TempFile "" (tool +:+ "_upgrade")].
Proof.
  intros Ht. unfold Download. step. rewrite Ht. simpl. split; [done|].
  revert Ht. unfold ioutil_TempFile. repeat case_match; intros; simplify_eq/=; done.
Qed.

(** [Download] panics only through its type assertion: on a system
    whose chmod errors are all [*os.PathError] values it always returns. *)
Theorem Download_returns
    (repo version tool : string) (s : State) :
  (∀ name e, faults h (FileChmod name) = Some e → ∃ op path msg, e = PathError op path msg) →
  ∃ r s', Download h repo version tool s = (Done r, s').
Proof.
  intros Hpe. unfold Download. step.
  assert (∀ t s2, ∃ r s',
    defer (Download_body h repo version tool t) (Download_deferred h t) s2
    = (Done r, s')) as Hrest.
  { intros t s2. rewrite defer_run.
    unfold Download_body, http_Get, io_Copy, Download_deferred, os_Remove. step.
    repeat case_match; simplify_eq/=; eauto. }
  destruct (ioutil_TempFile h "" _ s) as [[[t [e|]]|r] s1] eqn:Ht; simpl; eauto.
  - unfold file_Chmod. destruct (faults h (FileChmod t)) as [err|] eqn:Hflt; simpl.
    + destruct (Hpe _ _ Hflt) as (op & path & msg & ->). simpl.
      destruct (String.eqb msg "not supported by windows"); simpl;
        [apply Hrest | eauto].
    + destruct (fs s1 !! t); simpl; [apply Hrest | eauto].
  - revert Ht. unfold ioutil_TempFile. repeat case_match; intros; simplify_eq.
Qed.

(** *** Upgrade *)

Lemma Remove_refused name s e s' :
  os_Remove h name s = (Done (Some e), s') → fs s' = fs s.
Proof.
  unfold os_Remove. destruct (faults h _); [by intros; simplify_eq|]. simpl.
  destruct (fs s !! name); by intros; simplify_eq/=.
Qed.

(** The statements of [Upgrade] up to line 191, run under [prepared]. *)
Ltac prepare Hp Hneed :=
  let s1 := fresh "s1" in let s2 := fresh "s2" in
  let Hcur := fresh "Hcur" in let Hav := fresh "Hav" in
  let Hrb := fresh "Hrb" in let Hdl := fresh "Hdl" in
  destruct Hp as (s1 & s2 & Hcur & Hav & Hrb & Hdl);
  unfold Upgrade; rewrite Hcur; unfold mbind, M_bind, mret, M_ret; rewrite Hav;
  cbn [deref mret M_ret]; unfold mret, M_ret; rewrite Hneed, Hrb;
  unfold print; rewrite Hdl.

(** A current version that does not parse stops [Upgrade] at once: the
    parse error is returned wrapped, and nothing has been called, no
    request sent, no file touched; this holds even for a nil
    [upgradeForce]. *)
Theorem Upgrade_invalid_current_version
    (tool currentVersion repo filePrefix versionStable : string)
    (upgradeForce : option bool) (s : State) (v : Version) (e : error) :
  CurrentVersion currentVersion = (v, Some e) →
  Upgrade h tool currentVersion repo filePrefix versionStable upgradeForce s
  = (Done (Some (Wrapped e "unable to get current version")), s).
Proof. intros Hcur. unfold Upgrade. by rewrite Hcur. Qed.

(** When the available version cannot be resolved, [Upgrade] returns
    that error wrapped; its only call was the GET of the version, and no
    file has changed.  A nil [upgradeForce] is not dereferenced on this
    path. *)
Theorem Upgrade_resolution_fails
    (tool currentVersion repo filePrefix versionStable : string)
    (upgradeForce : option bool) (s s1 : State) (curr v : Version) (e : error) :
  CurrentVersion currentVersion = (curr, None) →
  AvailableVersion h repo filePrefix versionStable s = (Done (v, Some e), s1) →
  Upgrade h tool currentVersion repo filePrefix versionStable upgradeForce s
  = (Done (Some (Wrapped e "unable to get available version")), s1)
  ∧ fs s1 = fs s
  ∧ trace s1 = trace s ++ [HttpGet (repo +:+ "/" +:+ filePrefix +:+ versionStable)].
Proof.
  intros Hcur Hav. unfold Upgrade. rewrite Hcur. step. rewrite Hav. simpl.
  rewrite AvailableVersion_run in Hav. by simplify_eq/=.
Qed.

(** With both versions resolved, a nil [upgradeForce] makes [Upgrade]
    panic, after the GET of the version and before any file is touched. *)
Theorem Upgrade_nil_force_panics
    (tool currentVersion repo filePrefix versionStable : string)
    (s s1 : State) (curr avail : Version) :
  CurrentVersion currentVersion = (curr, None) →
  AvailableVersion h repo filePrefix versionStable s = (Done (avail, None), s1) →
  ∃ reason,
    Upgrade h tool currentVersion repo filePrefix versionStable None s = (Panic reason, s1)
    ∧ fs s1 = fs s.
Proof.
  intros Hcur Hav. unfold Upgrade. rewrite Hcur. step. rewrite Hav. simpl.
  eexists. split; [reflexivity|].
  rewrite AvailableVersion_run in Hav. by simplify_eq/=.
Qed.


(** When the download fails, [Upgrade] returns its error wrapped with
    "unable to upgrade <tool>"; the executable is at its path exactly as
    before, since nothing has been renamed or copied yet. *)
Theorem Upgrade_download_fails
    (tool currentVersion repo filePrefix versionStable : string) (force : bool)
    (s s1 s2 s3 : State) (curr avail : Version) (arg0 backup r : string) (e : error) :
  CurrentVersion currentVersion = (curr, None) →
  AvailableVersion h repo filePrefix versionStable s = (Done (avail, None), s1) →
  negb force && GTE curr avail = false →
  RemoveBackup h s1 = (Done (arg0, backup, None), s2) →
  Download h repo (Version_String avail) tool
    (log (Stdout ("upgrading " +:+ arg0 +:+ " to " +:+ Version_String avail +:+ nl)) s2)
  = (Done (r, Some e), s3) →
  is_Some (fs s !! arg0) →
  Upgrade h tool currentVersion repo filePrefix versionStable (Some force) s
  = (Done (Some (Wrapped e ("unable to upgrade " +:+ tool))), s3)
  ∧ fs s3 !! arg0 = fs s !! arg0.
Proof.
  intros Hcur Hav Hneed Hrb Hdl Hexe. unfold Upgrade. rewrite Hcur. step. rewrite Hav. simpl.
  rewrite Hneed, Hrb. simpl. rewrite Hdl. simpl. split; [done|].
  rewrite AvailableVersion_run in Hav. simplify_eq/=.
  apply RemoveBackup_ok in Hrb as (-> & -> & Hfs2 & _). simpl in Hfs2.
  assert (fs s2 !! exe h = fs s !! exe h) as H2.
  { rewrite Hfs2. apply lookup_delete_ne, not_eq_sym, backup_differs. }
  pose proof (Download_frame _ _ _ _ _ _ Hdl (exe h)) as Hf. simpl in Hf.
  rewrite Hf; [exact H2 | by rewrite H2].
Qed.

(** With force set, [Upgrade] installs the available version whatever
    the comparison says (the same version again, or an older one): when
    every step succeeds the executable's path holds the body served for
    the available version and the backup path the original. *)
Theorem Upgrade_forced_installs
    (tool currentVersion repo filePrefix versionStable : string)
    (s s3 s4 s5 s6 : State) (curr avail : Version) (arg0 backup tmp d : string) :
  prepared h tool currentVersion repo filePrefix versionStable s curr avail arg0 backup tmp s3 →
  tmp ≠ backup →
  os_Rename h arg0 backup s3 = (Done None, s4) →
  shutil_Copy h tmp arg0 false s4 = (Done (d, None), s5) →
  os_Remove h tmp s5 = (Done None, s6) →
  ∃ resp mode orig,
    Upgrade h tool currentVersion repo filePrefix versionStable (Some true) s
    = (Done None, s6)
    ∧ server h (binary_url h repo (Version_String avail) tool) = inl resp
    ∧ fs s6 !! arg0 = Some (mkFile (Body resp) mode (clock h))
    ∧ fs s !! arg0 = Some orig
    ∧ fs s6 !! backup = Some orig
    ∧ fs s6 !! tmp = None.
Proof.
  intros Hp Htmp Hmv Hcp Hrm.
  destruct (prepared_files _ _ _ _ _ _ _ _ _ _ _ _ _ Hp)
    as (-> & -> & resp & mode & Hsrv & Hst & Habs & Hfs3).
  assert (negb true && GTE curr avail = false) as Hneed by reflexivity.
  prepare Hp Hneed. rewrite Hmv. simpl. rewrite Hcp. simpl. rewrite Hrm. simpl.
  apply Rename_ok in Hmv as (orig & Horig & Hfs4).
  apply Copy_ok in Hcp as (Hne & f & Hf & Hfs5).
  apply Remove_ok in Hrm.
  pose proof (backup_differs (exe h)) as Hb.
  rewrite Hfs3, lookup_insert_ne, lookup_delete_ne in Horig by done.
  rewrite Hfs4, lookup_insert_ne, lookup_delete_ne, Hfs3, lookup_insert_eq in Hf by done.
  simplify_eq/=.
  exists resp, mode, orig. split; [reflexivity|].
  rewrite Hrm, Hfs5.
  rewrite lookup_delete_ne, lookup_insert_eq by done.
  rewrite lookup_delete_ne, lookup_insert_ne, Hfs4, lookup_insert_eq by done.
  by rewrite lookup_delete_eq.
Qed.

(** When everything succeeds except the removal of the temporary file,
    [Upgrade] returns that error wrapped with the path to remove; the
    upgrade itself has happened: the new binary is at the executable's
    path, the original at the backup path, and the temporary file is
    still there. *)
Theorem Upgrade_temp_cleanup_fails
    (tool currentVersion repo filePrefix versionStable : string) (force : bool)
    (s s3 s4 s5 s6 : State) (curr avail : Version) (arg0 backup tmp d : string)
    (e : error) :
  prepared h tool currentVersion repo filePrefix versionStable s curr avail arg0 backup tmp s3 →
  negb force && GTE curr avail = false →
  tmp ≠ backup →
  os_Rename h arg0 backup s3 = (Done None, s4) →
  shutil_Copy h tmp arg0 false s4 = (Done (d, None), s5) →
  os_Remove h tmp s5 = (Done (Some e), s6) →
  ∃ resp mode orig,
    Upgrade h tool currentVersion repo filePrefix versionStable (Some force) s
    = (Done (Some (Wrapped e ("unable to clean up temp file; remove " +:+ tmp))), s6)
    ∧ server h (binary_url h repo (Version_String avail) tool) = inl resp
    ∧ fs s6 !! arg0 = Some (mkFile (Body resp) mode (clock h))
    ∧ fs s !! arg0 = Some orig
    ∧ fs s6 !! backup = Some orig
    ∧ fs s6 !! tmp = Some (mkFile (Body resp) mode (clock h)).
Proof.
  intros Hp Hneed Htmp Hmv Hcp Hrm.
  destruct (prepared_files _ _ _ _ _ _ _ _ _ _ _ _ _ Hp)
    as (-> & -> & resp & mode & Hsrv & Hst & Habs & Hfs3).
  prepare Hp Hneed. rewrite Hmv. simpl. rewrite Hcp. simpl. rewrite Hrm. simpl.
  apply Rename_ok in Hmv as (orig & Horig & Hfs4).
  apply Copy_ok in Hcp as (Hne & f & Hf & Hfs5).
  apply Remove_refused in Hrm.
  pose proof (backup_differs (exe h)) as Hb.
  rewrite Hfs3, lookup_insert_ne, lookup_delete_ne in Horig by done.
  rewrite Hfs4, lookup_insert_ne, lookup_delete_ne, Hfs3, lookup_insert_eq in Hf by done.
  simplify_eq/=.
  exists resp, mode, orig. split; [reflexivity|].
  rewrite Hrm, Hfs5. rewrite lookup_insert_eq.
  rewrite !lookup_insert_ne, Hfs4, lookup_insert_eq by done.
  rewrite lookup_insert_ne, lookup_delete_ne, Hfs3, lookup_insert_eq by done.
  done.
Qed.

(** When the copy fails and the rename that should bring the backup back
    fails too, [Upgrade] returns an error whose cause is the error of
    that rename (the error of the copy is dropped) and whose message
    names the temporary file; the original executable survives at the
    backup path and the downloaded file at the temporary path. *)
Theorem Upgrade_unrecoverable
    (tool currentVersion repo filePrefix versionStable : string) (force : bool)
    (s s3 s4 s5 s6 : State) (curr avail : Version) (arg0 backup tmp d : string)
    (orig : File) (e1 e2 : error) :
  prepared h tool currentVersion repo filePrefix versionStable s curr avail arg0 backup tmp s3 →
  negb force && GTE curr avail = false →
  fs s !! arg0 = Some orig →
  tmp ≠ backup →
  os_Rename h arg0 backup s3 = (Done None, s4) →
  shutil_Copy h tmp arg0 false s4 = (Done (d, Some e1), s5) →
  os_Rename h backup arg0 s5 = (Done (Some e2), s6) →
  Upgrade h tool currentVersion repo filePrefix versionStable (Some force) s
  = (Done (Some (Wrapped e2 ("upgrade failed and unable to recover from backup;"
                             +:+ " move " +:+ tmp +:+ " to " +:+ args0 h))), s6)
  ∧ fs s6 !! backup = Some orig
  ∧ fs s6 !! tmp = fs s3 !! tmp
  ∧ is_Some (fs s6 !! tmp).
Proof.
  intros Hp Hneed Horig Htmp Hmv Hcp Hback.
  destruct (prepared_files _ _ _ _ _ _ _ _ _ _ _ _ _ Hp)
    as (-> & -> & resp & mode & Hsrv & Hst & Habs & Hfs3).
  prepare Hp Hneed. rewrite Hmv. simpl. rewrite Hcp. simpl. rewrite Hback. simpl.
  split; [reflexivity|].
  pose proof (backup_differs (exe h)) as Hb.
  assert (tmp ≠ exe h) as Hne.
  { intros ->. rewrite lookup_delete_ne in Habs by done. congruence. }
  apply Rename_ok in Hmv as (orig' & Horig' & Hfs4).
  rewrite Hfs3, lookup_insert_ne, lookup_delete_ne in Horig' by done.
  simplify_eq.
  pose proof (Copy_failed _ _ _ _ _ _ _ _ Hcp) as Hfs5.
  apply Rename_refused in Hback. rewrite Hback.
  rewrite !Hfs5, Hfs4 by done.
  rewrite lookup_insert_eq, lookup_insert_ne, lookup_delete_ne by done.
  rewrite Hfs3, lookup_insert_eq. done.
Qed.

(** *** The invariant of the replacement *)

Lemma fresh_name_listed (m : gmap string File) (names : list string) (n : string) :
  fresh_name m names = Some n → n ∈ names.
Proof.
  unfold fresh_name. intros Hf. apply find_some in Hf as [Hin _].
  by apply list_elem_of_In.
Qed.

(** The name of the temporary file is one of the names the runtime
    proposes. *)
Lemma Download_ok_name repo version tool s tmp s3 :
  Download h repo version tool s = (Done (tmp, None), s3) →
  tmp ∈ tempnames h (TempDir h) (tool +:+ "_upgrade").
Proof.
  unfold Download. step.
  destruct (ioutil_TempFile h "" _ s) as [[[t [e|]]|r] s1] eqn:Ht; simpl;
    [intros; simplify_eq| |intros; simplify_eq].
  assert (t ∈ tempnames h (TempDir h) (tool +:+ "_upgrade")) as Hin.
  { revert Ht. unfold ioutil_TempFile. destruct (faults h _); [intros; simplify_eq|].
    simpl. destruct (fresh_name _ _) eqn:Hn; intros; simplify_eq.
    by apply fresh_name_listed in Hn. }
  assert (∀ s2, defer (Download_body h repo version tool t) (Download_deferred h t) s2
                = (Done (tmp, None), s3) → tmp = t) as Hrest.
  { intros s2. rewrite defer_run. unfold Download_body. step.
    repeat case_match; intros; simplify_eq/=; done. }
  destruct (file_Chmod h t 493 s1) as [[err|r] s2] eqn:Hc; simpl; [|intros; simplify_eq].
  destruct err as [[op path msg| | | |]|]; simpl; try (intros; simplify_eq; fail).
  - destruct (String.eqb msg "not supported by windows"); simpl; [|intros; simplify_eq].
    intros E. by rewrite (Hrest _ E).
  - intros E. by rewrite (Hrest _ E).
Qed.

Lemma RemoveBackup_keeps_executable s o s2 :
  RemoveBackup h s = (o, s2) → fs s2 !! exe h = fs s !! exe h.
Proof.
  unfold RemoveBackup, os_Executable, os_RemoveAll. step.
  destruct (faults h Executable); simpl; [by intros; simplify_eq|].
  destruct (faults h (RemoveAll _)); simpl; intros; simplify_eq/=; [done|].
  apply lookup_delete_ne, not_eq_sym, backup_differs.
Qed.

Lemma Rename_returns oldpath newpath s r s' :
  os_Rename h oldpath newpath s ≠ (Panic r, s').
Proof. unfold os_Rename. repeat case_match; congruence. Qed.

Lemma Copy_returns src dst follow s r s' :
  shutil_Copy h src dst follow s ≠ (Panic r, s').
Proof. unfold shutil_Copy. repeat case_match; congruence. Qed.

Lemma Remove_returns name s r s' :
  os_Remove h name s ≠ (Panic r, s').
Proof. unfold os_Remove. repeat case_match; congruence. Qed.

(** The invariant of the replacement: however [Upgrade] ends (nil, an
    error, a panic), the original executable is at its own path or at
    the backup path.  The one assumption is that the runtime never
    proposes the backup path as the name of a temporary file. *)
Theorem Upgrade_never_loses_executable
    (tool currentVersion repo filePrefix versionStable : string)
    (upgradeForce : option bool) (s s' : State) (o : outcome (option error)) (orig : File) :
  (∀ dir pattern, exe h +:+ "~" ∉ tempnames h dir pattern) →
  fs s !! exe h = Some orig →
  Upgrade h tool currentVersion repo filePrefix versionStable upgradeForce s = (o, s') →
  fs s' !! exe h = Some orig ∨ fs s' !! (exe h +:+ "~") = Some orig.
Proof.
  intros Htmp Horig. unfold Upgrade.
  destruct (CurrentVersion currentVersion) as [curr [e|]];
    [solve [intros; step; simplify_eq/=; auto]|].
  unfold mbind, M_bind, mret, M_ret. cbv beta iota. rewrite AvailableVersion_run.
  destruct (resolved h repo filePrefix versionStable) as [avail [e|]]; cbv beta iota;
    [solve [intros; step; simplify_eq/=; auto]|].
  destruct upgradeForce as [force|]; [|solve [intros; step; simplify_eq/=; auto]].
  cbn [deref mret M_ret]. unfold mret, M_ret.
  destruct (negb force && GTE curr avail); cbv beta iota;
    [solve [intros; step; simplify_eq/=; auto]|].
  pose proof (backup_differs (exe h)) as Hb.
  destruct (RemoveBackup h (log (HttpGet (version_url repo filePrefix versionStable)) s))
    as [[[[arg0 backup] [e|]]|r] s2] eqn:Hrb; cbv beta iota.
  1, 3: apply RemoveBackup_keeps_executable in Hrb; simpl in Hrb;
        intros; simplify_eq; left; congruence.
  apply RemoveBackup_ok in Hrb as (-> & -> & Hfs2 & _). simpl in Hfs2.
  unfold print.
  destruct (Download h repo (Version_String avail) tool _)
    as [[[tmp [e|]]|r] s3] eqn:Hdl; cbv beta iota.
  1, 3: intros; simplify_eq; left;
        pose proof (Download_frame _ _ _ _ _ _ Hdl (exe h)) as Hf; simpl in Hf;
        rewrite Hf, Hfs2, lookup_delete_ne by (rewrite ?Hfs2, ?lookup_delete_ne; done);
        done.
  pose proof (Download_ok_name _ _ _ _ _ _ Hdl) as Hname.
  assert (tmp ≠ exe h +:+ "~") as Hne by (intros ->; by eapply Htmp).
  apply Download_ok in Hdl as (resp & mode & _ & _ & Habs & Hfs3). simpl in Habs, Hfs3.
  assert (tmp ≠ exe h) as Hne'.
  { intros ->. rewrite Hfs2, lookup_delete_ne in Habs by done. congruence. }
  assert (fs s3 !! exe h = Some orig) as H3.
  { by rewrite Hfs3, lookup_insert_ne, Hfs2, lookup_delete_ne. }
  destruct (os_Rename h (exe h) _ s3) as [[[e|]|r] s4] eqn:Hmv; cbv beta iota;
    [| |by apply Rename_returns in Hmv].
  { apply Rename_refused in Hmv. intros; simplify_eq. left. by rewrite Hmv. }
  apply Rename_ok in Hmv as (f & Hf & Hfs4). rewrite H3 in Hf. simplify_eq.
  assert (fs s4 !! (exe h +:+ "~") = Some f) as H4 by by rewrite Hfs4, lookup_insert_eq.
  destruct (shutil_Copy h tmp (exe h) false s4) as [[[d [e|]]|r] s5] eqn:Hcp;
    cbv beta iota; [| |by apply Copy_returns in Hcp].
  - assert (fs s5 !! (exe h +:+ "~") = Some f) as H5.
    { rewrite (Copy_failed _ _ _ _ _ _ _ _ Hcp); [exact H4 | by apply not_eq_sym]. }
    destruct (os_Rename h _ (exe h) s5) as [[[e'|]|r] s6] eqn:Hback; cbv beta iota;
      [| |by apply Rename_returns in Hback].
    + apply Rename_refused in Hback. intros; simplify_eq. right. by rewrite Hback.
    + apply Rename_ok in Hback as (g & Hg & Hfs6). rewrite H5 in Hg. simplify_eq.
      intros; simplify_eq. left. by rewrite Hfs6, lookup_insert_eq.
  - apply Copy_ok in Hcp as (_ & g & _ & Hfs5).
    assert (fs s5 !! (exe h +:+ "~") = Some f) as H5.
    { rewrite Hfs5, lookup_insert_ne; [exact H4 | done]. }
    destruct (os_Remove h tmp s5) as [[[e'|]|r] s6] eqn:Hrm; cbv beta iota;
      [| |by apply Remove_returns in Hrm].
    + apply Remove_refused in Hrm. intros; simplify_eq. right. by rewrite Hrm.
    + apply Remove_ok in Hrm. intros; simplify_eq. right.
      by rewrite Hrm, lookup_delete_ne.
Qed.

(** *** CheckAndNotifyIfOutOfDate *)



(** When the marker cannot be opened, or its time not be read, or (the
    gate having passed) it cannot be truncated, the function returns
    false with that very error; it has sent no request, its last call
    printed the error on stderr, and an existing marker is as it was. *)
Theorem CheckAndNotify_marker_failure
    (tool currentVersion repo filePrefix versionStable : string) (hours : float)
    (upgradeCommand : string) (s : State) (e : error) :
  faults h (OpenFile (marker_path h tool)) = Some e
  ∨ (faults h (OpenFile (marker_path h tool)) = None
     ∧ faults h (FileStat (marker_path h tool)) = Some e)
  ∨ (faults h (OpenFile (marker_path h tool)) = None
     ∧ faults h (FileStat (marker_path h tool)) = None
     ∧ gate_skips h tool hours s = false
     ∧ faults h (FileTruncate (marker_path h tool)) = Some e) →
  ∃ s' calls,
    CheckAndNotifyIfOutOfDate h tool currentVersion repo filePrefix versionStable
      hours upgradeCommand s = (Done (false, Some e), s')
    ∧ trace s' = trace s ++ calls
    ∧ (∀ url, HttpGet url ∉ calls)
    ∧ last calls = Some (Stderr ("error: " +:+ Error e +:+ nl))
    ∧ (∀ f, fs s !! marker_path h tool = Some f → fs s' = fs s).
Proof.
  unfold CheckAndNotifyIfOutOfDate, os_OpenFile, file_Stat, file_Truncate. step.
  intros [Ho | [[Ho Hs] | (Ho & Hs & Hg & Ht)]]; rewrite Ho; simpl.
  - eexists _, [_; _; _]. split; [reflexivity|]. simpl.
    rewrite <- !app_assoc. split; [reflexivity|]. split; [|done].
    no_get.
  - destruct (fs s !! marker_path h tool) as [f|] eqn:Hf; simpl; rewrite Hs; simpl;
      (eexists _, [_; _; _; _]; split; [reflexivity|]); simpl;
      rewrite <- !app_assoc; (split; [reflexivity|]); (split; [|split; [done|]]);
      try no_get.
    + done.
    + intros; simplify_eq.
  - unfold gate_skips, marker_mtime in Hg.
    destruct (fs s !! marker_path h tool) as [f|] eqn:Hf; simpl; rewrite Hs; simpl;
      rewrite ?Hf, ?lookup_insert_eq; simpl; rewrite Hg, Ht; simpl;
      (eexists _, [_; _; _; _; _]; split; [reflexivity|]); simpl;
      rewrite <- !app_assoc; (split; [reflexivity|]); (split; [|split; [done|]]);
      try no_get.
    + done.
    + intros; simplify_eq.
Qed.


(** Within the gate window an existing marker is left exactly as it is:
    no file changes when the check is skipped. *)
Theorem CheckAndNotify_skip_keeps_marker
    (tool currentVersion repo filePrefix versionStable : string) (hours : float)
    (upgradeCommand : string) (s : State) (f : File) :
  fs s !! marker_path h tool = Some f →
  faults h (OpenFile (marker_path h tool)) = None →
  faults h (FileStat (marker_path h tool)) = None →
  PrimFloat.ltb (Hours (Sub (clock h) (modtime f))) hours = true →
  ∃ s',
    CheckAndNotifyIfOutOfDate h tool currentVersion repo filePrefix versionStable
      hours upgradeCommand s = (Done (false, None), s')
    ∧ fs s' = fs s.
Proof.
  intros Hf Ho Hs Hskip.
  unfold CheckAndNotifyIfOutOfDate, os_OpenFile, file_Stat. step.
  rewrite Ho, Hf. simpl. rewrite Hs. simpl. rewrite Hf. simpl. rewrite Hskip.
  eexists. split; reflexivity.
Qed.

(** Whatever happens, [CheckAndNotifyIfOutOfDate] returns (it never
    panics) and the marker is the only file it can have changed. *)
Theorem CheckAndNotify_touches_only_marker
    (tool currentVersion repo filePrefix versionStable : string) (hours : float)
    (upgradeCommand : string) (s : State) :
  ∃ r s',
    CheckAndNotifyIfOutOfDate h tool currentVersion repo filePrefix versionStable
      hours upgradeCommand s = (Done r, s')
    ∧ ∀ p, p ≠ marker_path h tool → fs s' !! p = fs s !! p.
Proof.
  unfold CheckAndNotifyIfOutOfDate, os_OpenFile, file_Stat, file_Truncate. step.
  repeat (case_match; step; simplify_eq/=);
    try (rewrite AvailableVersion_run in *; simplify_eq/=);
    (eexists _, _; split; [reflexivity|]); simpl; intros p Hp;
    rewrite ?lookup_insert_ne by done; done.
Qed.


(** Once the gate has passed and the marker is refreshed, the function
    returns true exactly when it has printed the notice: with true, the
    error is nil and the last call wrote the line naming the tool and
    the upgrade command to stderr; with false, nothing was printed. *)
Theorem CheckAndNotify_notice
    (tool currentVersion repo filePrefix versionStable : string) (hours : float)
    (upgradeCommand : string) (s : State) :
  faults h (OpenFile (marker_path h tool)) = None →
  faults h (FileStat (marker_path h tool)) = None →
  faults h (FileTruncate (marker_path h tool)) = None →
  gate_skips h tool hours s = false →
  ∃ outOfDate err s' calls,
    CheckAndNotifyIfOutOfDate h tool currentVersion repo filePrefix versionStable
      hours upgradeCommand s = (Done (outOfDate, err), s')
    ∧ trace s' = trace s
                 ++ [OpenFile (marker_path h tool); FileStat (marker_path h tool);
                     FileTruncate (marker_path h tool)]
                 ++ calls
    ∧ (outOfDate = true →
       err = None
       ∧ last calls = Some (Stderr ("A new version of [" +:+ tool
                                    +:+ "] is available, run: " +:+ upgradeCommand +:+ nl)))
    ∧ (outOfDate = false → ∀ text, Stderr text ∉ calls).
Proof.
  intros Ho Hs Ht Hpass.
  destruct (CheckAndNotify_pass h tool currentVersion repo filePrefix versionStable
              hours upgradeCommand s Ho Hs Ht Hpass) as (s' & mode & E & _ & Htr).
  destruct (verdict h currentVersion repo filePrefix versionStable) as [b err] eqn:Hv.
  exists b, err, s', (after_claim h tool currentVersion repo filePrefix versionStable
                        upgradeCommand).
  split; [exact E|]. split; [exact Htr|].
  revert Hv. unfold verdict, after_claim.
  destruct (CurrentVersion currentVersion) as [curr [e|]].
  { intros [= <- <-]. split; [done|]. intros _ text Hin.
    by apply elem_of_nil in Hin. }
  destruct (resolved h repo filePrefix versionStable) as [avail [e|]].
  { intros [= <- <-]. split; [done|]. intros _ text Hin.
    apply elem_of_cons in Hin as [Hin|Hin]; [discriminate|].
    by apply elem_of_nil in Hin. }
  destruct (GT avail curr); intros [= <- <-]; (split; [done|]); intros Hb; [done|].
  intros text Hin. apply elem_of_cons in Hin as [Hin|Hin]; [discriminate|].
  by apply elem_of_nil in Hin.
Qed.

End Further.

(** * Concrete runs for the further properties *)

(** Both variables set: HOME decides.  Only USERPROFILE set: it is used. *)
Lemma GetHome_precedence_witness :
  (GetHome (machine (<["USERPROFILE" := "C:/Users/u"]> home) serve no_faults) = "/home/u"
   ∧ marker_path (machine (<["USERPROFILE" := "C:/Users/u"]> home) serve no_faults) "tool"
     = filepath_Clean ("/home/u" +:+ "/" +:+ "." +:+ "tool" +:+ "-version-check"))
  ∧ GetHome (machine {[ "USERPROFILE" := "C:/Users/u" ]} serve no_faults)
    = default "" (Some "C:/Users/u").
Proof.
  split.
  - apply (proj1 (GetHome_precedence
                    (machine (<["USERPROFILE" := "C:/Users/u"]> home) serve no_faults)
                    "/home/u" "tool")).
    split; [reflexivity | discriminate].
  - exact (proj2 (GetHome_precedence
                    (machine {[ "USERPROFILE" := "C:/Users/u" ]} serve no_faults)
                    "" "tool") (or_introl eq_refl)).
Defined.



Lemma RemoveBackup_twice_witness :
  ∃ s1 s2,
    RemoveBackup (machine home serve no_faults) s1 = (Done (self, self +:+ "~", None), s2)
    ∧ fs s2 = fs s1.
Proof.
  eexists.
  eapply (RemoveBackup_twice (machine home serve no_faults) leftover _ self (self +:+ "~")).
  by_running.
Defined.

(** The binary of 1.2.4 is not found: the executable is untouched. *)
Lemma Download_never_touches_existing_witness :
  fs (Download (machine home serve no_faults) repo "1.2.4" "tool" start).2 !! self
  = Some original.
Proof.
  eapply (Download_never_touches_existing (machine home serve no_faults) repo "1.2.4" "tool"
            start).
  - apply surjective_pairing.
  - reflexivity.
Defined.

Lemma Download_success_witness :
  ∃ s' resp mode,
    serve ("https://example.com/tool" +:+ "/" +:+ "1.2.3" +:+ "/" +:+ "tool" +:+ "_"
           +:+ "linux" +:+ "_" +:+ "amd64") = inl resp
    ∧ StatusCode resp = 200
    ∧ BodyErr resp = None
    ∧ disk !! tmpname = None
    ∧ fs s' = <[tmpname := mkFile (Body resp) mode now]> disk
    ∧ (mode = 493%N ∨ mode = 384%N ∧ ∃ op path,
         no_faults (FileChmod tmpname)
         = Some (PathError op path "not supported by windows"))
    ∧ trace s' = [] ++ [TempFile "" ("tool" +:+ "_upgrade"); FileChmod tmpname;
                        HttpGet ("https://example.com/tool" +:+ "/" +:+ "1.2.3" +:+ "/"
                                 +:+ "tool" +:+ "_" +:+ "linux" +:+ "_" +:+ "amd64");
                        FileWrite tmpname].
Proof.
  eexists.
  eapply (Download_success (machine home serve no_faults) repo "1.2.3" "tool" start _ tmpname).
  by_running.
Defined.

Lemma Download_without_temp_file_witness :
  ∃ s1 e,
    Download (machine home serve tempfile_fails) repo "1.2.3" "tool" start
    = (Done ("", Some e), s1)
    ∧ fs s1 = fs start
    ∧ trace s1 = trace start ++ [TempFile "" ("tool" +:+ "_upgrade")].
Proof.
  eexists _, _.
  eapply (Download_without_temp_file (machine home serve tempfile_fails) repo "1.2.3" "tool"
            start _ "").
  by_running.
Defined.

Lemma Download_returns_witness :
  ∃ r s', Download (machine home serve chmod_denied) repo "1.2.3" "tool" start = (Done r, s').
Proof.
  apply (Download_returns (machine home serve chmod_denied) repo "1.2.3" "tool" start).
  intros name e. simpl. intros [= <-]. eauto.
Defined.

(** "1.2" is not a version. *)
Lemma Upgrade_invalid_current_version_witness :
  ∃ e,
    Upgrade (H := Release.semver) (machine home serve no_faults)
      "tool" "1.2" repo ".version-" "latest" None start
    = (Done (Some (Wrapped e "unable to get current version")), start).
Proof.
  eexists.
  eapply (Upgrade_invalid_current_version (H := Release.semver)
            (machine home serve no_faults) "tool" "1.2" repo ".version-" "latest" None start
            (0, 0, 0)%N).
  reflexivity.
Defined.

Lemma Upgrade_resolution_fails_witness :
  ∃ e s1,
    Upgrade (H := Release.semver) (machine home offline no_faults)
      "tool" "1.2.2" repo ".version-" "latest" None start
    = (Done (Some (Wrapped e "unable to get available version")), s1)
    ∧ fs s1 = fs start
    ∧ trace s1 = trace start ++ [HttpGet (repo +:+ "/" +:+ ".version-" +:+ "latest")].
Proof.
  eexists _, _.
  eapply (Upgrade_resolution_fails (H := Release.semver) (machine home offline no_faults)
            "tool" "1.2.2" repo ".version-" "latest" None start _ (1, 2, 2)%N (0, 0, 0)%N).
  - reflexivity.
  - by_running.
Defined.

Lemma Upgrade_nil_force_panics_witness :
  ∃ s1 reason,
    Upgrade (H := Release.semver) (machine home serve no_faults)
      "tool" "1.2.2" repo ".version-" "latest" None start = (Panic reason, s1)
    ∧ fs s1 = fs start.
Proof.
  eexists.
  eapply (Upgrade_nil_force_panics (H := Release.semver) (machine home serve no_faults)
            "tool" "1.2.2" repo ".version-" "latest" start _ (1, 2, 2)%N (1, 2, 3)%N).
  - reflexivity.
  - by_running.
Defined.


Lemma Upgrade_download_fails_witness :
  ∃ e s3,
    Upgrade (H := Release.semver) (machine home unpublished no_faults)
      "tool" "1.2.2" repo ".version-" "latest" (Some false) start
    = (Done (Some (Wrapped e ("unable to upgrade " +:+ "tool"))), s3)
    ∧ fs s3 !! self = fs start !! self.
Proof.
  eexists _, _.
  eapply (Upgrade_download_fails (H := Release.semver) (machine home unpublished no_faults)
            "tool" "1.2.2" repo ".version-" "latest" false start _ _ _
            (1, 2, 2)%N (1, 2, 3)%N self (self +:+ "~") "").
  - reflexivity.
  - by_running.
  - reflexivity.
  - by_running.
  - by_running.
  - eexists. reflexivity.
Defined.

(** 1.2.3 is installed and the channel names 1.2.3: with force the
    binary is downloaded and installed again. *)
Lemma Upgrade_forced_installs_witness :
  ∃ s6 resp mode orig,
    Upgrade (H := Release.semver) (machine home serve no_faults)
      "tool" "1.2.3" repo ".version-" "latest" (Some true) start
    = (Done None, s6)
    ∧ serve "https://example.com/tool/1.2.3/tool_linux_amd64" = inl resp
    ∧ fs s6 !! self = Some (mkFile (Body resp) mode now)
    ∧ disk !! self = Some orig
    ∧ fs s6 !! (self +:+ "~") = Some orig
    ∧ fs s6 !! tmpname = None.
Proof.
  eexists.
  eapply (Upgrade_forced_installs (H := Release.semver) (machine home serve no_faults)
            "tool" "1.2.3" repo ".version-" "latest" start _ _ _ _
            (1, 2, 3)%N (1, 2, 3)%N self (self +:+ "~") tmpname).
  - eexists _, _. split; [reflexivity|]. split; [by_running|]. split; by_running.
  - discriminate.
  - by_running.
  - by_running.
  - by_running.
Defined.

(** The temporary file cannot be removed after the copy. *)
Lemma Upgrade_temp_cleanup_fails_witness :
  ∃ e s6 resp mode orig,
    Upgrade (H := Release.semver) (machine home serve remove_fails)
      "tool" "1.2.2" repo ".version-" "latest" (Some false) start
    = (Done (Some (Wrapped e ("unable to clean up temp file; remove " +:+ tmpname))), s6)
    ∧ serve "https://example.com/tool/1.2.3/tool_linux_amd64" = inl resp
    ∧ fs s6 !! self = Some (mkFile (Body resp) mode now)
    ∧ disk !! self = Some orig
    ∧ fs s6 !! (self +:+ "~") = Some orig
    ∧ fs s6 !! tmpname = Some (mkFile (Body resp) mode now).
Proof.
  eexists _, _.
  eapply (Upgrade_temp_cleanup_fails (H := Release.semver) (machine home serve remove_fails)
            "tool" "1.2.2" repo ".version-" "latest" false start _ _ _ _
            (1, 2, 2)%N (1, 2, 3)%N self (self +:+ "~") tmpname).
  - eexists _, _. split; [reflexivity|]. split; [by_running|]. split; by_running.
  - reflexivity.
  - discriminate.
  - by_running.
  - by_running.
  - by_running.
Defined.

(** The copy fails and the backup cannot be renamed back. *)
Lemma Upgrade_unrecoverable_witness :
  ∃ e2 s3 s6,
    Upgrade (H := Release.semver) (machine home serve copy_and_recovery_fail)
      "tool" "1.2.2" repo ".version-" "latest" (Some false) start
    = (Done (Some (Wrapped e2 ("upgrade failed and unable to recover from backup;"
                               +:+ " move " +:+ tmpname +:+ " to " +:+ "tool"))), s6)
    ∧ fs s6 !! (self +:+ "~") = Some original
    ∧ fs s6 !! tmpname = fs s3 !! tmpname
    ∧ is_Some (fs s6 !! tmpname).
Proof.
  eexists _, _, _.
  eapply (Upgrade_unrecoverable (H := Release.semver)
            (machine home serve copy_and_recovery_fail)
            "tool" "1.2.2" repo ".version-" "latest" false start _ _ _ _
            (1, 2, 2)%N (1, 2, 3)%N self (self +:+ "~") tmpname).
  - eexists _, _. split; [reflexivity|]. split; [by_running|]. split; by_running.
  - reflexivity.
  - reflexivity.
  - discriminate.
  - by_running.
  - by_running.
  - by_running.
Defined.

(** The gate passes but the marker cannot be truncated. *)
Lemma CheckAndNotify_marker_failure_witness :
  ∃ e s' calls,
    CheckAndNotifyIfOutOfDate (H := Release.semver) (machine home serve truncate_fails)
      "tool" "1.2.2" repo ".version-" "latest" 24%float "tool upgrade" stale
    = (Done (false, Some e), s')
    ∧ trace s' = trace stale ++ calls
    ∧ (∀ url, HttpGet url ∉ calls)
    ∧ last calls = Some (Stderr ("error: " +:+ Error e +:+ nl))
    ∧ (∀ f, fs stale !! marker = Some f → fs s' = fs stale).
Proof.
  eexists.
  eapply (CheckAndNotify_marker_failure (H := Release.semver)
            (machine home serve truncate_fails)
            "tool" "1.2.2" repo ".version-" "latest" 24%float "tool upgrade" stale).
  right. right. split; [reflexivity|]. split; [reflexivity|].
  split; [vm_compute; reflexivity | reflexivity].
Defined.


(** One hour after the last check. *)
Lemma CheckAndNotify_skip_keeps_marker_witness :
  ∃ s',
    CheckAndNotifyIfOutOfDate (H := Release.semver) (machine home serve no_faults)
      "tool" "1.2.2" repo ".version-" "latest" 24%float "tool upgrade" recent
    = (Done (false, None), s')
    ∧ fs s' = fs recent.
Proof.
  eapply (CheckAndNotify_skip_keeps_marker (H := Release.semver)
            (machine home serve no_faults)
            "tool" "1.2.2" repo ".version-" "latest" 24%float "tool upgrade" recent
            (mkFile "" 420 (now - Hour))).
  - reflexivity.
  - reflexivity.
  - reflexivity.
  - vm_compute. reflexivity.
Defined.


Lemma CheckAndNotify_notice_witness :
  ∃ outOfDate err s' calls,
    CheckAndNotifyIfOutOfDate (H := Release.semver) (machine home serve no_faults)
      "tool" "1.2.2" repo ".version-" "latest" 24%float "tool upgrade" stale
    = (Done (outOfDate, err), s')
    ∧ trace s' = trace stale ++ [OpenFile marker; FileStat marker; FileTruncate marker]
                 ++ calls
    ∧ (outOfDate = true →
       err = None
       ∧ last calls = Some (Stderr ("A new version of [" +:+ "tool"
                                    +:+ "] is available, run: " +:+ "tool upgrade" +:+ nl)))
    ∧ (outOfDate = false → ∀ text, Stderr text ∉ calls).
Proof.
  eapply (CheckAndNotify_notice (H := Release.semver) (machine home serve no_faults)
            "tool" "1.2.2" repo ".version-" "latest" 24%float "tool upgrade" stale).
  - reflexivity.
  - reflexivity.
  - reflexivity.
  - vm_compute. reflexivity.
Defined.

(** Two strings with different last characters differ. *)
Lemma ends_differently (x y : string) (a b : ascii) :
  a ≠ b → x +:+ String a "" ≠ y +:+ String b "".
Proof.
  intros Hab. revert y. induction x as [|c x IH]; intros [|d y] E.
  - by injection E.
  - injection E as _ E. by destruct y.
  - injection E as _ E. by destruct x.
  - injection E as _ E. by eapply IH.
Qed.

(** The temporary names of the example machine end in a digit, the
    backup path in a tilde. *)
Lemma not_a_temp_name (dir pattern : string) :
  self +:+ "~" ∉ [dir +:+ "/" +:+ pattern +:+ "123456789"].
Proof.
  intros Hin. apply list_elem_of_singleton in Hin.
  change (dir +:+ "/" +:+ pattern +:+ "123456789")
    with (dir +:+ "/" +:+ pattern +:+ "12345678" +:+ "9") in Hin.
  rewrite <- !string_app_assoc in Hin.
  by eapply ends_differently in Hin.
Qed.

(** The worst run: the copy and the recovery both fail. *)
Lemma Upgrade_never_loses_executable_witness :
  fs (Upgrade (H := Release.semver) (machine home serve copy_and_recovery_fail)
        "tool" "1.2.2" repo ".version-" "latest" (Some false) start).2 !! self
  = Some original
  ∨ fs (Upgrade (H := Release.semver) (machine home serve copy_and_recovery_fail)
          "tool" "1.2.2" repo ".version-" "latest" (Some false) start).2 !! (self +:+ "~")
    = Some original.
Proof.
  eapply (Upgrade_never_loses_executable (H := Release.semver)
            (machine home serve copy_and_recovery_fail)
            "tool" "1.2.2" repo ".version-" "latest" (Some false) start).
  - apply not_a_temp_name.
  - reflexivity.
  - apply surjective_pairing.
Defined.
